(** * SeeWithYou: the description synthesiser of [app/(tabs)/index.tsx]

    A shallow embedding of the [HomeScreen] component's [takePicture] cycle:
    the Rekognition label filter, the size-based distance buckets, the
    direction geometry, the sentence assembly, and the capture / upload /
    analyse / speak cycle with its [try] / [catch] / [finally].

    JavaScript numbers are IEEE 754 binary64 values; they are modelled by
    Rocq's primitive [float]s, which are binary64 with round-to-nearest-even,
    so [*], [+], [/], [<] and [>] below are the operations the source runs.
    JavaScript strings are modelled by [string]: the literals of the source
    and the label names of the vision service are ASCII, and [toLowerCase]
    is modelled on ASCII (it moves [A]-[Z] to [a]-[z]).  [Math.round] and the
    conversion of a number to text are built-ins of the runtime and are
    parameters of the synthesis. *)

From Stdlib Require Import Floats String Ascii List Bool Arith ZArith Lia.
From Stdlib Require Import DecimalString.
Import ListNotations.

Set Warnings "-inexact-float".

Local Open Scope list_scope.
Local Open Scope string_scope.

(* ===================================================================== *)
(** ** JavaScript value semantics used by the component *)
(* ===================================================================== *)

Module JS.

(** [!!x] for a number: [0], [-0] and [NaN] are falsy. *)
Definition truthyNum (x : float) : bool :=
  negb (PrimFloat.eqb x 0%float || PrimFloat.is_nan x).

(** [!!s] for a string: only the empty string is falsy. *)
Definition truthyStr (s : string) : bool :=
  match s with
  | EmptyString => false
  | String _ _ => true
  end.

(** [x || d] where [x] is an optional number ([undefined] is [None]). *)
Definition orNum (x : option float) (d : float) : float :=
  match x with
  | Some v => if truthyNum v then v else d
  | None => d
  end.

(** [s || d] where [s] is an optional string. *)
Definition orStr (s : option string) (d : string) : string :=
  match s with
  | Some v => if truthyStr v then v else d
  | None => d
  end.

(** [!!x] for a value of type [number | null]. *)
Definition truthyNullable (x : option float) : bool :=
  match x with
  | Some v => truthyNum v
  | None => false
  end.

(** One character of [String.prototype.toLowerCase]: the letters [A]-[Z]
    move to [a]-[z], every other ASCII character is kept. *)
Definition lowerChar (c : ascii) : ascii :=
  let n := nat_of_ascii c in
  if (65 <=? n)%nat && (n <=? 90)%nat then ascii_of_nat (n + 32) else c.

Fixpoint toLowerCase (s : string) : string :=
  match s with
  | EmptyString => EmptyString
  | String c s' => String (lowerChar c) (toLowerCase s')
  end.

(** [s.includes(searchString)]: [searchString] occurs in [s] at some
    position. *)
Fixpoint includes (s searchString : string) : bool :=
  String.prefix searchString s ||
  match s with
  | EmptyString => false
  | String _ s' => includes s' searchString
  end.

(** [xs.forEach((x, index) => ...)] for a callback that updates one
    captured variable of type [St]: the callback receives the current value
    of that variable, the element and its index. *)
Fixpoint forEachFrom {A St : Type} (f : St -> A -> nat -> St)
         (xs : list A) (index : nat) (s : St) : St :=
  match xs with
  | [] => s
  | x :: xs' => forEachFrom f xs' (S index) (f s x index)
  end.

Definition forEach {A St : Type} (f : St -> A -> nat -> St) (xs : list A) (s : St) : St :=
  forEachFrom f xs 0 s.

(** [xs.slice(0, n)]. *)
Definition slice0 {A : Type} (n : nat) (xs : list A) : list A := firstn n xs.

End JS.

(* ===================================================================== *)
(** ** The vision collaborator's records (DetectLabels response) *)
(* ===================================================================== *)

(** Every field of the SDK's types is optional; [None] is [undefined]. *)
Record BoundingBox := mkBox {
  Width : option float;
  Height : option float;
  Left : option float;
  Top : option float
}.

Record Instance := mkInstance {
  Box : option BoundingBox;          (* [instance.BoundingBox] *)
  InstanceConfidence : option float
}.

Record Label := mkLabel {
  Name : option string;
  Confidence : option float;
  Instances : option (list Instance)
}.

(* ===================================================================== *)
(** ** Object filter (lines 149-164, 175) *)
(* ===================================================================== *)

Definition excludeCategories : list string :=
  [ "interior design"; "architecture"; "room"; "indoors"; "outdoors";
    "building"; "floor"; "wall"; "ceiling"; "flooring"; "hardwood";
    "wood"; "lighting"; "urban"; "city"; "nature"; "scenery"; "landscape";
    "housing"; "shelter"; "home decor"; "art"; "modern art"; "abstract" ].

(** [label.Instances && label.Instances.length > 0] *)
Definition hasInstances (label : Label) : bool :=
  match Instances label with
  | Some instances => (0 <? List.length instances)%nat
  | None => false
  end.

(** The callback of [allLabels.filter]. *)
Definition isPhysicalObject (label : Label) : bool :=
  let name := JS.orStr (option_map JS.toLowerCase (Name label)) "" in
  if existsb (fun cat => JS.includes name cat) excludeCategories
  then false
  else hasInstances label.

Definition physicalObjects (allLabels : list Label) : list Label :=
  filter isPhysicalObject allLabels.

Definition topObjects (physicalObjects : list Label) : list Label :=
  JS.slice0 3 physicalObjects.

(* ===================================================================== *)
(** ** Distance buckets (lines 197-210) *)
(* ===================================================================== *)

Definition boxArea (box : BoundingBox) : float :=
  (JS.orNum (Width box) 0 * JS.orNum (Height box) 0)%float.

(** [a > b] on numbers. *)
Definition gt (a b : float) : bool := PrimFloat.ltb b a.

Definition objectDistanceOf (boxArea : float) : string :=
  if gt boxArea 0.3 then "2 to 3 feet"
  else if gt boxArea 0.15 then "4 to 6 feet"
  else if gt boxArea 0.08 then "8 to 10 feet"
  else if gt boxArea 0.04 then "12 to 15 feet"
  else "more than 15 feet".

(* ===================================================================== *)
(** ** Direction geometry (lines 212-242) *)
(* ===================================================================== *)

Definition centerX (box : BoundingBox) : float :=
  (JS.orNum (Left box) 0 + JS.orNum (Width box) 0 / 2)%float.

Definition centerY (box : BoundingBox) : float :=
  (JS.orNum (Top box) 0 + JS.orNum (Height box) 0 / 2)%float.

Definition horizontalOf (centerX : float) : string :=
  if PrimFloat.ltb centerX 0.3 then "on your left"
  else if gt centerX 0.7 then "on your right"
  else "in front of you".

Definition verticalOf (centerY : float) : string :=
  if PrimFloat.ltb centerY 0.3 then "above"
  else if gt centerY 0.7 then "below"
  else "".

Definition combineDirections (vertical horizontal : string) : string :=
  if JS.truthyStr vertical && negb (horizontal =? "in front of you")
  then vertical ++ " and " ++ horizontal
  else if JS.truthyStr vertical
  then vertical ++ " " ++ horizontal
  else horizontal.

Definition directionAt (centerX centerY : float) : string :=
  combineDirections (verticalOf centerY) (horizontalOf centerX).

Definition directionOf (box : BoundingBox) : string :=
  directionAt (centerX box) (centerY box).

(* ===================================================================== *)
(** ** Sentence assembly (lines 172-265) *)
(* ===================================================================== *)

Definition fallbackSentence : string :=
  "No specific objects detected. Try pointing at a clear object like a person, chair, or bottle.".

(** The two locals [objectDistance] and [direction] of the [forEach]
    callback (lines 190-244): both stay [''] unless the label's first
    instance carries a bounding box. *)
Definition objectDistanceAndDirection (label : Label) : string * string :=
  match Instances label with
  | Some (instance :: _) =>
      match Box instance with
      | Some box => (objectDistanceOf (boxArea box), directionOf box)
      | None => ("", "")
      end
  | _ => ("", "")
  end.

(** The [forEach] callback (lines 186-259), as a function of the current
    value of [description]; [realDistance] is captured from the enclosing
    scope. *)
Definition describeLabel (realDistance : option float)
           (description : string) (label : Label) (index : nat) : string :=
  let name := JS.orStr (option_map JS.toLowerCase (Name label)) "object" in
  let '(objectDistance, direction) := objectDistanceAndDirection label in
  let description :=
    if (index =? 0)%nat
    then description ++ "I see a " ++ name
    else description ++ ", a " ++ name in
  let description :=
    if JS.truthyStr objectDistance && negb (JS.truthyNullable realDistance)
    then description ++ " about " ++ objectDistance ++ " away"
    else description in
  if JS.truthyStr direction
  then description ++ " " ++ direction
  else description.

(* ===================================================================== *)
(** ** The capture cycle: [takePicture] (lines 100-285) *)
(* ===================================================================== *)

(** A thrown value, as far as the [catch] block inspects it: [error.code],
    [error.message] and [error.toString()]. *)
Record JsError := mkError {
  code : option string;
  message : option string;
  toStringOf : string
}.

(** [new Error(msg)] *)
Definition newError (msg : string) : JsError :=
  mkError None (Some msg) ("Error: " ++ msg).

(** The component's state ([useState] hooks, lines 25-28). *)
Record HomeScreen := mkHomeScreen {
  analyzing : bool;
  result : string;
  hasLiDAR : bool;
  arSessionActive : bool
}.

(** What the cycle does to the outside, in order: calls on the
    collaborators and state updates ([console] output is left out). *)
Inductive Event :=
| SetAnalyzing (value : bool)
| SetResult (text : string)
| SpeechStop
| SpeechSpeak (text : string)
| AlertShown (title text : string)
| CameraTakePicture
| S3PutObject (key : string) (body : list ascii)
| RekognitionDetectLabels (key : string)
| DepthAtCenter.

Record Photo := mkPhoto { base64 : option string }.

Inductive SpeechOutcome :=
| SpeechOk
| StopThrows (error : JsError)
| SpeakThrows (error : JsError).

(** The collaborators' answers during one cycle: [inl] is a rejected
    promise (a thrown value), [inr] a resolved one. *)
Record Collaborators := mkCollaborators {
  cameraModule : bool;                  (* [CameraModule] is defined *)
  arkitModule : bool;                   (* [ARKitDepthModule] is defined *)
  speechResponse : string -> SpeechOutcome;
  cameraResponse : JsError + option Photo;
  dateNow : N;
  atobResponse : string -> JsError + string;
  s3Response : string -> option JsError;
  rekognitionResponse : string -> JsError + option (list Label);
  depthResponse : JsError + float       (* [depthData.distance] *)
}.

(** *** A small monad: state, an event log, and thrown values.

    A throw keeps the state and the events that came before it, as in
    JavaScript. *)
Inductive Completion (A : Type) :=
| Normal (value : A)
| Throw (error : JsError).
Arguments Normal {A} value.
Arguments Throw {A} error.

Definition M (A : Type) : Type :=
  HomeScreen -> Completion A * HomeScreen * list Event.

Definition ret {A : Type} (a : A) : M A := fun s => (Normal a, s, []).

Definition bind {A B : Type} (m : M A) (f : A -> M B) : M B :=
  fun s =>
    match m s with
    | (Normal a, s1, ev1) =>
        let '(c, s2, ev2) := f a s1 in (c, s2, (ev1 ++ ev2)%list)
    | (Throw e, s1, ev1) => (Throw e, s1, ev1)
    end.

Definition throw {A : Type} (e : JsError) : M A := fun s => (Throw e, s, []).

Definition emit (ev : Event) : M unit := fun s => (Normal tt, s, [ev]).

Definition getState : M HomeScreen := fun s => (Normal s, s, []).

(** [try { m } catch (error) { handler error }] *)
Definition tryCatch {A : Type} (m : M A) (handler : JsError -> M A) : M A :=
  fun s =>
    match m s with
    | (Throw e, s1, ev1) =>
        let '(c, s2, ev2) := handler e s1 in (c, s2, (ev1 ++ ev2)%list)
    | r => r
    end.

(** [try { m } finally { f }] *)
Definition tryFinally {A : Type} (m : M A) (f : M unit) : M A :=
  fun s =>
    let '(c, s1, ev1) := m s in
    match f s1 with
    | (Normal _, s2, ev2) => (c, s2, (ev1 ++ ev2)%list)
    | (Throw e, s2, ev2) => (Throw e, s2, (ev1 ++ ev2)%list)
    end.

Declare Scope cycle_scope.
Delimit Scope cycle_scope with cycle.
Notation "x <- m ;; k" := (bind m (fun x => k))
  (at level 61, m at next level, right associativity) : cycle_scope.
Notation "m ;; k" := (bind m (fun _ => k))
  (at level 61, right associativity) : cycle_scope.
Local Open Scope cycle_scope.

Definition setAnalyzing (value : bool) : M unit :=
  fun s => (Normal tt,
            mkHomeScreen value (result s) (hasLiDAR s) (arSessionActive s),
            [SetAnalyzing value]).

Definition setResult (text : string) : M unit :=
  fun s => (Normal tt,
            mkHomeScreen (analyzing s) text (hasLiDAR s) (arSessionActive s),
            [SetResult text]).

(** [await p] for a promise that resolves or rejects. *)
Definition await {A : Type} (p : JsError + A) : M A :=
  match p with
  | inl e => throw e
  | inr a => ret a
  end.

(** [`${error.message}`] *)
Definition messageText (error : JsError) : string :=
  match message error with
  | Some m => m
  | None => "undefined"
  end.

(** [speakText] (lines 64-84): it never throws, a failure of the speech
    collaborator ends in an alert. *)
Definition speakText (w : Collaborators) (text : string) : M unit :=
  tryCatch
    (emit SpeechStop ;;
     match speechResponse w text with
     | StopThrows e => throw e
     | SpeakThrows e => emit (SpeechSpeak text) ;; throw e
     | SpeechOk => emit (SpeechSpeak text)
     end)
    (fun error => emit (AlertShown "TTS Error" ("Could not speak: " ++ messageText error))).

(** [getARKitDistance] (lines 86-98). *)
Definition getARKitDistance (w : Collaborators) : M (option float) :=
  s <- getState ;;
  if negb (hasLiDAR s) || negb (arkitModule w) then ret None
  else
    tryCatch
      (emit DepthAtCenter ;;
       distance <- await (depthResponse w) ;;
       ret (Some distance))
      (fun _ => ret None).

(** [base64ToUint8Array] (lines 55-62): [atob], then one byte per character
    code. *)
Definition base64ToUint8Array (w : Collaborators) (base64 : string) : M (list ascii) :=
  binaryString <- await (atobResponse w base64) ;;
  ret (list_ascii_of_string binaryString).

(** [error?.message || error?.toString() || 'Unknown error'] *)
Definition errorDetails (error : JsError) : string :=
  let m := JS.orStr (message error) "" in
  if JS.truthyStr m then m
  else if JS.truthyStr (toStringOf error) then toStringOf error
  else "Unknown error".

(** [error.code === 'CANCELLED'] *)
Definition isCancelled (error : JsError) : bool :=
  match code error with
  | Some c => c =? "CANCELLED"
  | None => false
  end.

(** [`analysis/${timestamp}.jpg`] *)
Definition analysisKey (timestamp : N) : string :=
  "analysis/" ++ NilEmpty.string_of_uint (N.to_uint timestamp) ++ ".jpg".

(* ===================================================================== *)
(** ** Synthesis and the cycle, over the runtime's number built-ins *)
(* ===================================================================== *)

Section Synthesis.

(** [Math.round] and the number-to-string conversion of a template literal
    are built-ins of the JavaScript runtime; the synthesis takes them as
    parameters. *)
Variable Math_round : float -> float.
Variable Number_toString : float -> string.

(** The leading clause (lines 178-183). *)
Definition leadingClause (realDistance : option float) : string :=
  match realDistance with
  | Some realDistance =>
      let distFeet := (Math_round (realDistance * 10) / 10)%float in
      "Objects are approximately " ++ Number_toString distFeet ++ " feet away. "
  | None => "Objects detected. "
  end.

(** The value of [description] at line 267, from [physicalObjects] and
    [realDistance]. *)
Definition describe (physicalObjects : list Label) (realDistance : option float) : string :=
  if (0 <? List.length physicalObjects)%nat then
    let topObjects := topObjects physicalObjects in
    let description := leadingClause realDistance in
    let description := JS.forEach (describeLabel realDistance) topObjects description in
    description ++ "."
  else fallbackSentence.

(** Lines 146-265 in one piece: from the labels of the vision collaborator
    and the depth reading to the sentence. *)
Definition describeLabels (allLabels : list Label) (realDistance : option float) : string :=
  describe (physicalObjects allLabels) realDistance.


(** *** The cycle itself *)

(** The body of the [try] block (lines 107-268). *)
Definition analyse (w : Collaborators) : M unit :=
  emit CameraTakePicture ;;
  photo <- await (cameraResponse w) ;;
  base64 <- match photo with
            | Some (mkPhoto (Some b)) =>
                if JS.truthyStr b then ret b else throw (newError "No image data")
            | _ => throw (newError "No image data")
            end ;;
  setResult "Analyzing image..." ;;
  speakText w "Analyzing" ;;
  let timestamp := dateNow w in
  let key := analysisKey timestamp in
  imageBytes <- base64ToUint8Array w base64 ;;
  emit (S3PutObject key imageBytes) ;;
  match s3Response w key with Some e => throw e | None => ret tt end ;;
  emit (RekognitionDetectLabels key) ;;
  labels <- await (rekognitionResponse w key) ;;
  let allLabels := match labels with Some ls => ls | None => [] end in
  let physicalObjects := physicalObjects allLabels in
  s <- getState ;;
  realDistance <- (if hasLiDAR s then getARKitDistance w else ret None) ;;
  let description := describe physicalObjects realDistance in
  setResult description ;;
  speakText w description.

(** The [catch] block (lines 270-281). *)
Definition onError (w : Collaborators) (error : JsError) : M unit :=
  if isCancelled error then
    setResult "" ;;
    setAnalyzing false
  else
    let errorMsg := "Analysis failed: " ++ errorDetails error in
    setResult errorMsg ;;
    speakText w "Analysis failed. Please try again.".

Definition takePicture (w : Collaborators) : M unit :=
  s <- getState ;;
  if analyzing s || negb (cameraModule w) then ret tt
  else
    setAnalyzing true ;;
    speakText w "Opening camera" ;;
    tryFinally (tryCatch (analyse w) (onError w)) (setAnalyzing false).

End Synthesis.

(* ===================================================================== *)
(** ** Sample inputs *)
(* ===================================================================== *)

Module Sample.

(** The bounding box of the end-to-end scenario:
    [{left: 0.1, top: 0.4, width: 0.3, height: 0.3}]. *)
Definition chairBox : BoundingBox :=
  mkBox (Some 0.3%float) (Some 0.3%float) (Some 0.1%float) (Some 0.4%float).

Definition fullFrame : BoundingBox :=
  mkBox (Some 1%float) (Some 1%float) (Some 0%float) (Some 0%float).

Definition chair : Label :=
  mkLabel (Some "chair") None (Some [mkInstance (Some chairBox) None]).

Definition interiorDesign (instance : Instance) : Label :=
  mkLabel (Some "interior design") None (Some [instance]).

(** A chair whose only instance carries no bounding box. *)
Definition chairWithoutBox : Label :=
  mkLabel (Some "Chair") (Some 91%float) (Some [mkInstance None (Some 91%float)]).

(** An instance of the runtime's number built-ins for closed examples (the
    identity and a fixed text); every theorem below holds for all
    instances. *)
Definition Math_round (x : float) : float := x.
Definition Number_toString (x : float) : string := "4.2".

Definition livingRoom : Label :=
  mkLabel (Some "Living Room") (Some 99.9%float)
          (Some [mkInstance (Some fullFrame) (Some 99%float);
                 mkInstance (Some chairBox) (Some 80%float)]).

End Sample.

(* ===================================================================== *)
(** ** Vocabulary of the properties *)
(* ===================================================================== *)

(** [Subsequence xs ys]: [xs] is obtained from [ys] by deleting elements,
    the remaining ones keeping their relative order. *)
Inductive Subsequence {A : Type} : list A -> list A -> Prop :=
| Subsequence_empty : Subsequence [] []
| Subsequence_keep : forall x xs ys, Subsequence xs ys -> Subsequence (x :: xs) (x :: ys)
| Subsequence_drop : forall y xs ys, Subsequence xs ys -> Subsequence xs (y :: ys).

(** The five phrases of the distance estimator. *)
Definition distancePhrases : list string :=
  [ "2 to 3 feet"; "4 to 6 feet"; "8 to 10 feet"; "12 to 15 feet";
    "more than 15 feet" ].

(** The nearest distance, in feet, that a bucket's phrase allows; a phrase
    is nearer than another when this number is smaller. *)
Definition nearestFeet (phrase : string) : nat :=
  if phrase =? "2 to 3 feet" then 2
  else if phrase =? "4 to 6 feet" then 4
  else if phrase =? "8 to 10 feet" then 8
  else if phrase =? "12 to 15 feet" then 12
  else 15.

(** Numbers that differ at most in the sign of zero.

    [x || 0] turns [-0] into [0]; sums, halves and comparisons cannot tell
    the two zeros apart. *)

Definition isZero (x : float) : bool := PrimFloat.eqb x 0.

(** [sameNumber x y]: the same value, or two zeros. *)
Definition sameNumber (x y : float) : Prop :=
  x = y \/ (isZero x = true /\ isZero y = true).

(** The direction estimator in the words of the specification (section
    4.3): a horizontal qualifier, an optional vertical qualifier, and the
    rule that joins them.  This is the reference the code is compared
    with. *)
Module DirectionSpec.

Inductive Horizontal := OnYourLeft | OnYourRight | InFrontOfYou.
Inductive Vertical := Above | Below.

Definition horizontal (cx : float) : Horizontal :=
  if PrimFloat.ltb cx 0.3 then OnYourLeft
  else if PrimFloat.ltb 0.7 cx then OnYourRight
  else InFrontOfYou.

Definition vertical (cy : float) : option Vertical :=
  if PrimFloat.ltb cy 0.3 then Some Above
  else if PrimFloat.ltb 0.7 cy then Some Below
  else None.

Definition horizontalPhrase (h : Horizontal) : string :=
  match h with
  | OnYourLeft => "on your left"
  | OnYourRight => "on your right"
  | InFrontOfYou => "in front of you"
  end.

Definition verticalPhrase (v : Vertical) : string :=
  match v with
  | Above => "above"
  | Below => "below"
  end.

Definition phrase (cx cy : float) : string :=
  match vertical cy, horizontal cx with
  | Some v, InFrontOfYou => verticalPhrase v ++ " " ++ horizontalPhrase InFrontOfYou
  | Some v, h => verticalPhrase v ++ " and " ++ horizontalPhrase h
  | None, h => horizontalPhrase h
  end.

End DirectionSpec.

(** The text that the callback appends for one object, part by part. *)
Definition connective (index : nat) : string :=
  if (index =? 0)%nat then "I see a " else ", a ".

Definition narratedName (label : Label) : string :=
  JS.orStr (option_map JS.toLowerCase (Name label)) "object".

Definition distanceClause (realDistance : option float) (label : Label) : string :=
  let objectDistance := fst (objectDistanceAndDirection label) in
  if JS.truthyStr objectDistance && negb (JS.truthyNullable realDistance)
  then " about " ++ objectDistance ++ " away"
  else "".

Definition directionClause (label : Label) : string :=
  let direction := snd (objectDistanceAndDirection label) in
  if JS.truthyStr direction then " " ++ direction else "".

(** The clauses of a list of objects, one after the other, the first one
    having index [index]. *)
Fixpoint listingFrom (clause : Label -> nat -> string)
         (labels : list Label) (index : nat) : string :=
  match labels with
  | [] => ""
  | label :: rest => clause label index ++ listingFrom clause rest (S index)
  end.

Definition objectClause (realDistance : option float) (label : Label) (index : nat) : string :=
  connective index ++ narratedName label
    ++ distanceClause realDistance label ++ directionClause label.

(** The label with every instance but the first one dropped. *)
Definition keepFirstInstance (label : Label) : Label :=
  mkLabel (Name label) (Confidence label) (option_map (JS.slice0 1) (Instances label)).

(** What [speakText] does to the outside. *)
Definition announcement (w : Collaborators) (text : string) : list Event :=
  match speechResponse w text with
  | SpeechOk => [SpeechStop; SpeechSpeak text]
  | StopThrows e =>
      [SpeechStop; AlertShown "TTS Error" ("Could not speak: " ++ messageText e)]
  | SpeakThrows e =>
      [SpeechStop; SpeechSpeak text;
       AlertShown "TTS Error" ("Could not speak: " ++ messageText e)]
  end.

(** Kinds of events. *)
Definition isUpload (ev : Event) : bool :=
  match ev with S3PutObject _ _ => true | _ => false end.

Definition isAnalysis (ev : Event) : bool :=
  match ev with RekognitionDetectLabels _ => true | _ => false end.

Definition isDepthReading (ev : Event) : bool :=
  match ev with DepthAtCenter => true | _ => false end.

(** The depth reading of a cycle (lines 166-170 and [getARKitDistance]):
    a number only when LiDAR is flagged available, the depth module is
    defined and its reading resolves. *)
Definition measuredDistance (w : Collaborators) (s : HomeScreen) : option float :=
  if hasLiDAR s && arkitModule w then
    match depthResponse w with
    | inr distance => Some distance
    | inl _ => None
    end
  else None.

Definition depthEvents (w : Collaborators) (s : HomeScreen) : list Event :=
  if hasLiDAR s && arkitModule w then [DepthAtCenter] else [].

(** [reachesSynthesis w s objects realDistance]: from screen state [s] and
    with collaborators [w], the cycle gets past capture, decoding, upload and
    detection, and arrives at line 172 with [physicalObjects = objects] and
    the depth reading [realDistance]. *)
Definition reachesSynthesis (w : Collaborators) (s : HomeScreen)
           (objects : list Label) (realDistance : option float) : Prop :=
  analyzing s = false /\
  cameraModule w = true /\
  exists (b binaryString : string) (labels : option (list Label)),
    cameraResponse w = inr (Some (mkPhoto (Some b))) /\
    JS.truthyStr b = true /\
    atobResponse w b = inr binaryString /\
    s3Response w (analysisKey (dateNow w)) = None /\
    rekognitionResponse w (analysisKey (dateNow w)) = inr labels /\
    physicalObjects (match labels with Some ls => ls | None => [] end) = objects /\
    measuredDistance w s = realDistance.

(** The cycle's last steps are: display [description], hand it to
    [speakText], reset [analyzing]. *)
Definition endsWith (w : Collaborators) (description : string) (events : list Event) : Prop :=
  exists before : list Event,
    events = (before ++ SetResult description
                :: announcement w description ++ [SetAnalyzing false])%list.

(** Sample cycles. *)
Module SampleCycle.

Definition cancelled : JsError :=
  mkError (Some "CANCELLED") (Some "User cancelled") "Error: User cancelled".

Definition sensorFailure : JsError :=
  mkError None (Some "No depth data") "Error: No depth data".

(** The user dismisses the camera; the device has no LiDAR. *)
Definition cancelledCapture : Collaborators :=
  mkCollaborators true false (fun _ => SpeechOk) (inl cancelled) 1700000000000
                  (fun _ => inr "") (fun _ => None) (fun _ => inr None)
                  (inl sensorFailure).

(** A chair and a scene label are detected; the device has no LiDAR. *)
Definition chairAndScene : Collaborators :=
  mkCollaborators true false (fun _ => SpeechOk)
                  (inr (Some (mkPhoto (Some "QUJD")))) 1700000000000
                  (fun _ => inr "ABC") (fun _ => None)
                  (fun _ => inr (Some [Sample.chair;
                                       Sample.interiorDesign (mkInstance (Some Sample.fullFrame) None)]))
                  (inl sensorFailure).

(** Another photo at another time, the chair alone is detected, the speech
    collaborator fails, and the depth module is present but its reading
    fails. *)
Definition chairAlone : Collaborators :=
  mkCollaborators true true (fun _ => SpeakThrows sensorFailure)
                  (inr (Some (mkPhoto (Some "REVG")))) 1700000099999
                  (fun _ => inr "DEF") (fun _ => None)
                  (fun _ => inr (Some [Sample.chair]))
                  (inl sensorFailure).

Definition freshScreen : HomeScreen := mkHomeScreen false "" false false.

Definition usedScreen : HomeScreen :=
  mkHomeScreen false "Analysis failed: Network request failed" true true.

End SampleCycle.


(* ===================================================================== *)
(** ** Start-up and rendering (lines 25-53, 287-336) *)
(* ===================================================================== *)

(** The state of the first render: the defaults of the [useState] hooks. *)
Definition initialScreen : HomeScreen := mkHomeScreen false "" false false.

(** The answers of the depth module to [checkLiDAR]. *)
Record DepthStartup := mkDepthStartup {
  depthModule : bool;                    (* [ARKitDepthModule] is defined *)
  availableResponse : JsError + bool;    (* [isLiDARAvailable()] *)
  startResponse : option JsError         (* [startDepthSession()] rejects *)
}.

Inductive StartupEvent :=
| IsLiDARAvailable
| SetHasLiDAR (value : bool)
| StartDepthSession
| SetArSessionActive (value : bool).

Definition setHasLiDAR (value : bool) (s : HomeScreen) : HomeScreen :=
  mkHomeScreen (analyzing s) (result s) value (arSessionActive s).

Definition setArSessionActive (value : bool) (s : HomeScreen) : HomeScreen :=
  mkHomeScreen (analyzing s) (result s) (hasLiDAR s) value.

(** [checkLiDAR] (lines 39-53): the [catch] block only logs, so a rejected
    call leaves the state as it was when the call was made. *)
Definition checkLiDAR (d : DepthStartup) (s : HomeScreen) : HomeScreen * list StartupEvent :=
  if depthModule d then
    match availableResponse d with
    | inl _ => (s, [IsLiDARAvailable])
    | inr available =>
        let s1 := setHasLiDAR available s in
        if available then
          match startResponse d with
          | Some _ =>
              (s1, [IsLiDARAvailable; SetHasLiDAR available; StartDepthSession])
          | None =>
              (setArSessionActive true s1,
               [IsLiDARAvailable; SetHasLiDAR available; StartDepthSession;
                SetArSessionActive true])
          end
        else (s1, [IsLiDARAvailable; SetHasLiDAR available])
    end
  else (s, []).

(** What the component renders (lines 287-336), as far as it depends on the
    state: the LiDAR badge, the result box or the instructions (with the
    LiDAR hint), and the capture button. *)
Inductive Body :=
| ResultBox (text : string)
| Instructions (lidarHint : bool).

Record Screen := mkScreen {
  lidarBadge : bool;
  body : Body;
  buttonDisabled : bool;
  spinner : bool;
  buttonLabel : string
}.

Definition render (s : HomeScreen) : Screen :=
  mkScreen (hasLiDAR s)
           (if JS.truthyStr (result s) then ResultBox (result s)
            else Instructions (hasLiDAR s))
           (analyzing s)
           (analyzing s)
           (if analyzing s then "Analyzing..." else "Tap to Analyze").

(* ===================================================================== *)
(** ** Further vocabulary *)
(* ===================================================================== *)

(** [x || 0] takes the default: the field is absent, [0], [-0] or [NaN]. *)
Definition falsyField (x : option float) : bool :=
  match x with
  | Some v => negb (JS.truthyNum v)
  | None => true
  end.

(** Left to right, and top to bottom, as numbers. *)
Definition horizontalRank (phrase : string) : nat :=
  if phrase =? "on your left" then 0
  else if phrase =? "in front of you" then 1
  else 2.

Definition verticalRank (phrase : string) : nat :=
  if phrase =? "above" then 0
  else if phrase =? "" then 1
  else 2.

(** The base64 text of a photo the cycle can use:
    [photo && photo.base64] is truthy. *)
Definition usableBase64 (photo : option Photo) : option string :=
  match photo with
  | Some (mkPhoto (Some b)) => if JS.truthyStr b then Some b else None
  | _ => None
  end.

Definition isCapture (ev : Event) : bool :=
  match ev with CameraTakePicture => true | _ => false end.

Definition isAlert (ev : Event) : bool :=
  match ev with AlertShown _ _ => true | _ => false end.

(** Every [Speech.speak] comes right after a [Speech.stop]. *)
Fixpoint stopsBefore (previousWasStop : bool) (events : list Event) : bool :=
  match events with
  | [] => true
  | SpeechSpeak _ :: rest => previousWasStop && stopsBefore false rest
  | SpeechStop :: rest => stopsBefore true rest
  | _ :: rest => stopsBefore false rest
  end.

Definition speechCancelsPrior (events : list Event) : bool :=
  stopsBefore false events.

(** The storage and vision calls of a cycle, in order. *)
Definition cloudCalls (events : list Event) : list Event :=
  filter (fun ev => isUpload ev || isAnalysis ev) events.

(** [label.Name?.toLowerCase()], with [''] for an absent name. *)
Definition loweredName (label : Label) : string :=
  match Name label with
  | Some name => JS.toLowerCase name
  | None => ""
  end.

(** A label of the vision service without a name, with one instance that
    has no bounding box. *)
Definition unnamedLabel : Label :=
  mkLabel None (Some 75%float) (Some [mkInstance None None]).

(** The apology of the [catch] block. *)
Definition apology : string := "Analysis failed. Please try again.".

(* ===================================================================== *)
(** ** Properties of the object filter *)
(* ===================================================================== *)

#[local] Hint Constructors Subsequence : core.

Section SubsequenceFacts.
Context {A : Type}.

Lemma Subsequence_refl (xs : list A) : Subsequence xs xs.
Proof. induction xs; auto. Qed.

Lemma Subsequence_nil (ys : list A) : Subsequence [] ys.
Proof. induction ys; auto. Qed.

Lemma Subsequence_trans (xs ys zs : list A) :
  Subsequence xs ys -> Subsequence ys zs -> Subsequence xs zs.
Proof.
  intros Hxy Hyz. revert xs Hxy.
  induction Hyz as [|z ys zs _ IH|z ys zs _ IH]; intros xs Hxy.
  - exact Hxy.
  - inversion Hxy; subst; auto.
  - auto.
Qed.

Lemma Subsequence_filter (f : A -> bool) (xs : list A) :
  Subsequence (filter f xs) xs.
Proof.
  induction xs as [|x xs IH]; simpl; [constructor|].
  destruct (f x); auto.
Qed.

Lemma Subsequence_firstn (n : nat) (xs : list A) :
  Subsequence (firstn n xs) xs.
Proof.
  revert n. induction xs as [|x xs IH]; intros [|n]; simpl; auto.
  apply Subsequence_nil.
Qed.

End SubsequenceFacts.

Lemma orStr_empty_default (v : string) : JS.orStr (Some v) "" = v.
Proof. destruct v; reflexivity. Qed.

Lemma isPhysicalObject_hasInstances (label : Label) :
  isPhysicalObject label = true -> hasInstances label = true.
Proof.
  unfold isPhysicalObject.
  destruct (existsb _ excludeCategories); [discriminate | auto].
Qed.

Lemma hasInstances_first (label : Label) :
  hasInstances label = true ->
  exists instance rest, Instances label = Some (instance :: rest).
Proof.
  unfold hasInstances. destruct (Instances label) as [[|i rest]|]; simpl.
  - discriminate.
  - intros _. now exists i, rest.
  - discriminate.
Qed.

Lemma In_slice0 {A : Type} (n : nat) (x : A) (xs : list A) :
  In x (JS.slice0 n xs) -> In x xs.
Proof.
  unfold JS.slice0. revert xs.
  induction n as [|n IH]; intros [|y xs]; simpl; try tauto.
  intros [H|H]; [now left | right; now apply IH].
Qed.

Lemma topObjects_In (label : Label) (objects : list Label) :
  In label (topObjects objects) -> In label objects.
Proof. apply In_slice0. Qed.

(** [s.includes(searchString)] holds exactly when [searchString] occurs
    somewhere in [s]. *)
Lemma prefix_occurs (p s : string) :
  String.prefix p s = true <-> exists after, s = p ++ after.
Proof.
  revert s. induction p as [|c p IH]; intros s; simpl.
  - split; [intros _; exists s; reflexivity | destruct s; reflexivity].
  - destruct s as [|d s]; simpl.
    + split; [discriminate | intros [after H]; discriminate].
    + destruct (Ascii.ascii_dec c d) as [->|Hcd].
      * rewrite IH. split; intros [after H]; exists after; congruence.
      * split; [discriminate | intros [after H]; congruence].
Qed.

Lemma includes_occurs (s searchString : string) :
  JS.includes s searchString = true <->
  exists before after, s = before ++ searchString ++ after.
Proof.
  induction s as [|c s IH]; cbn [JS.includes].
  - rewrite orb_false_r, prefix_occurs. split.
    + intros [after H]. exists "", after. exact H.
    + intros [[|b before] [after H]]; [now exists after | discriminate].
  - rewrite orb_true_iff, prefix_occurs, IH. split.
    + intros [[after H]|[before [after H]]].
      * exists "", after. exact H.
      * exists (String c before), after. simpl. now rewrite H.
    + intros [[|b before] [after H]].
      * left. now exists after.
      * right. exists before, after. simpl in H. congruence.
Qed.

(** C5. An object whose lowercased name contains a term of the fixed
    denylist [excludeCategories] is excluded by the filter, whatever its
    confidence and however many instances it has: it is neither among
    [physicalObjects] nor among the at most three narrated [topObjects]. *)
Theorem denylisted_name_is_excluded :
  forall (allLabels : list Label) (label : Label) (name cat before after : string),
    Name label = Some name ->
    In cat excludeCategories ->
    JS.toLowerCase name = before ++ cat ++ after ->
    ~ In label (physicalObjects allLabels) /\
    ~ In label (topObjects (physicalObjects allLabels)).
Proof.
  intros allLabels label name cat before after Hname Hcat Hoccurs.
  assert (Hincl : JS.includes (JS.toLowerCase name) cat = true).
  { apply includes_occurs. now exists before, after. }
  assert (Hrej : isPhysicalObject label = false).
  { unfold isPhysicalObject. rewrite Hname. simpl option_map.
    rewrite orStr_empty_default.
    replace (existsb _ excludeCategories) with true; [reflexivity|].
    symmetry. apply existsb_exists. exists cat. split; assumption. }
  assert (Hout : ~ In label (physicalObjects allLabels)).
  { unfold physicalObjects. intros Hin. apply filter_In in Hin.
    destruct Hin as [_ Hin]. congruence. }
  split; [exact Hout|].
  intros Hin. apply Hout. now apply topObjects_In.
Qed.

Lemma denylisted_name_is_excluded_witness :
  ~ In Sample.livingRoom (physicalObjects [Sample.chair; Sample.livingRoom]) /\
  ~ In Sample.livingRoom (topObjects (physicalObjects [Sample.chair; Sample.livingRoom])).
Proof.
  apply (denylisted_name_is_excluded
           [Sample.chair; Sample.livingRoom] Sample.livingRoom
           "Living Room" "room" "living " "").
  - reflexivity.
  - simpl. tauto.
  - reflexivity.
Defined.

(** C6. The filter returns at most three objects, every one of them has
    at least one instance, and the survivors are a subsequence of the
    input: they appear in the input's relative order. *)
Theorem filter_cap_instances_order :
  forall allLabels : list Label,
    let survivors := topObjects (physicalObjects allLabels) in
    List.length survivors <= 3 /\
    Forall (fun label => exists instance rest,
                Instances label = Some (instance :: rest)) survivors /\
    Subsequence survivors allLabels.
Proof.
  intros allLabels survivors. subst survivors.
  split; [|split].
  - unfold topObjects, JS.slice0. apply firstn_le_length.
  - apply Forall_forall. intros label Hin.
    apply topObjects_In in Hin. unfold physicalObjects in Hin.
    apply filter_In in Hin. destruct Hin as [_ Hphys].
    apply hasInstances_first. now apply isPhysicalObject_hasInstances.
  - unfold topObjects, JS.slice0, physicalObjects.
    eapply Subsequence_trans.
    + apply Subsequence_firstn.
    + apply Subsequence_filter.
Qed.

(* ===================================================================== *)
(** ** Comparison of binary64 numbers *)
(* ===================================================================== *)

(** [<] on the specification floats is transitive: it is the lexicographic
    order on sign, exponent and mantissa, with [NaN] comparable to nothing. *)
Lemma SFltb_trans (x y z : spec_float) :
  SFltb x y = true -> SFltb y z = true -> SFltb x z = true.
Proof.
  unfold SFltb.
  destruct x as [sx|sx| |sx mx ex], y as [sy|sy| |sy my ey], z as [sz|sz| |sz mz ez];
    simpl; try discriminate; try tauto;
    try (destruct sx, sy, sz; simpl; congruence).
  destruct sx, sy, sz; simpl; try congruence;
    change (Pos.compare_cont Eq) with Pos.compare;
    destruct (Z.compare_spec ex ey), (Z.compare_spec ey ez), (Z.compare_spec ex ez);
    try discriminate; try lia; try reflexivity; subst;
    destruct (Pos.compare_spec mx my), (Pos.compare_spec my mz), (Pos.compare_spec mx mz);
    simpl; try discriminate; try lia; reflexivity.
Qed.

Lemma ltb_trans (x y z : float) :
  PrimFloat.ltb x y = true -> PrimFloat.ltb y z = true -> PrimFloat.ltb x z = true.
Proof. rewrite !FloatAxioms.ltb_spec. apply SFltb_trans. Qed.

(* ===================================================================== *)
(** ** Properties of the distance buckets *)
(* ===================================================================== *)

Lemma gt_mono (t a1 a2 : float) :
  PrimFloat.ltb a1 a2 = true -> gt a1 t = true -> gt a2 t = true.
Proof. unfold gt. intros H12 Ht. exact (ltb_trans t a1 a2 Ht H12). Qed.

Lemma objectDistanceOf_phrase (boxArea : float) :
  In (objectDistanceOf boxArea) distancePhrases.
Proof.
  unfold objectDistanceOf, distancePhrases.
  destruct (gt boxArea 0.3); [simpl; tauto|].
  destruct (gt boxArea 0.15); [simpl; tauto|].
  destruct (gt boxArea 0.08); [simpl; tauto|].
  destruct (gt boxArea 0.04); simpl; tauto.
Qed.

(** C4. The bucket mapping sends every area to one of the five phrases
    and is monotonic: for areas [a1 < a2] the phrase for [a1] is never nearer
    than the phrase for [a2]. *)
Theorem distance_bucket_monotone :
  forall a1 a2 : float,
    PrimFloat.ltb a1 a2 = true ->
    In (objectDistanceOf a1) distancePhrases /\
    In (objectDistanceOf a2) distancePhrases /\
    nearestFeet (objectDistanceOf a2) <= nearestFeet (objectDistanceOf a1).
Proof.
  intros a1 a2 Hlt.
  split; [apply objectDistanceOf_phrase|].
  split; [apply objectDistanceOf_phrase|].
  pose proof (gt_mono 0.3 a1 a2 Hlt) as H30.
  pose proof (gt_mono 0.15 a1 a2 Hlt) as H15.
  pose proof (gt_mono 0.08 a1 a2 Hlt) as H08.
  pose proof (gt_mono 0.04 a1 a2 Hlt) as H04.
  unfold objectDistanceOf.
  destruct (gt a1 0.3); [rewrite (H30 eq_refl); cbv; lia|].
  destruct (gt a1 0.15);
    [rewrite (H15 eq_refl); destruct (gt a2 0.3); cbv; lia|].
  destruct (gt a1 0.08);
    [rewrite (H08 eq_refl); destruct (gt a2 0.3), (gt a2 0.15); cbv; lia|].
  destruct (gt a1 0.04);
    [rewrite (H04 eq_refl); destruct (gt a2 0.3), (gt a2 0.15), (gt a2 0.08); cbv; lia|].
  destruct (gt a2 0.3), (gt a2 0.15), (gt a2 0.08), (gt a2 0.04); cbv; lia.
Qed.

Lemma distance_bucket_monotone_witness :
  In (objectDistanceOf 0.09) distancePhrases /\
  In (objectDistanceOf 0.2) distancePhrases /\
  nearestFeet (objectDistanceOf 0.2) <= nearestFeet (objectDistanceOf 0.09).
Proof.
  apply (distance_bucket_monotone 0.09 0.2). reflexivity.
Defined.

Lemma Prim2SF_zero : Prim2SF 0 = S754_zero false.
Proof. reflexivity. Qed.

Lemma Prim2SF_two : Prim2SF 2 = S754_finite false 4503599627370496 (-51).
Proof. reflexivity. Qed.

Lemma isZero_spec (x : float) :
  isZero x = true <-> exists s, Prim2SF x = S754_zero s.
Proof.
  unfold isZero. rewrite FloatAxioms.eqb_spec, Prim2SF_zero. unfold SFeqb.
  destruct (Prim2SF x) as [s|s| |s m e]; simpl.
  - split; eauto.
  - split; [destruct s; discriminate | intros [? ?]; discriminate].
  - split; [discriminate | intros [? ?]; discriminate].
  - split; [destruct s; discriminate | intros [? ?]; discriminate].
Qed.

Lemma is_nan_spec (x : float) :
  PrimFloat.is_nan x = true -> Prim2SF x = S754_nan.
Proof. intros H. unfold Prim2SF. now rewrite H. Qed.

Lemma sameNumber_refl (x : float) : sameNumber x x.
Proof. now left. Qed.

Lemma orNum_sameNumber (x : float) :
  PrimFloat.is_nan x = false -> sameNumber (JS.orNum (Some x) 0) x.
Proof.
  intros Hnan. unfold JS.orNum, JS.truthyNum. rewrite Hnan, orb_false_r.
  destruct (PrimFloat.eqb x 0) eqn:E; simpl.
  - right. split; [reflexivity | exact E].
  - now left.
Qed.

Lemma half_sameNumber (x y : float) :
  sameNumber x y -> sameNumber (x / 2) (y / 2).
Proof.
  intros [->|[Hx Hy]]; [now left|]. right.
  apply isZero_spec in Hx. apply isZero_spec in Hy.
  destruct Hx as [sx Hx], Hy as [sy Hy].
  split; apply isZero_spec; rewrite div_spec, Prim2SF_two.
  - rewrite Hx. eexists. reflexivity.
  - rewrite Hy. eexists. reflexivity.
Qed.

Lemma isZero_false_spec (x : float) :
  isZero x = false -> forall s, Prim2SF x <> S754_zero s.
Proof.
  intros H s Hs. assert (isZero x = true) by (apply isZero_spec; eauto).
  congruence.
Qed.

Lemma add_zero_l (z y : float) :
  isZero z = true ->
  if isZero y then isZero (z + y) = true else (z + y)%float = y.
Proof.
  intros Hz. apply isZero_spec in Hz. destruct Hz as [s Hz].
  destruct (isZero y) eqn:Hy.
  - apply isZero_spec in Hy. destruct Hy as [sy Hy].
    apply isZero_spec. rewrite add_spec, Hz, Hy.
    destruct s, sy; eexists; reflexivity.
  - pose proof (isZero_false_spec y Hy) as Hnz.
    apply Prim2SF_inj. rewrite add_spec, Hz.
    destruct (Prim2SF y) as [sy|sy| |sy my ey]; try reflexivity.
    now destruct (Hnz sy).
Qed.

Lemma add_zero_r (x z : float) :
  isZero z = true ->
  if isZero x then isZero (x + z) = true else (x + z)%float = x.
Proof.
  intros Hz. apply isZero_spec in Hz. destruct Hz as [s Hz].
  destruct (isZero x) eqn:Hx.
  - apply isZero_spec in Hx. destruct Hx as [sx Hx].
    apply isZero_spec. rewrite add_spec, Hz, Hx.
    destruct s, sx; eexists; reflexivity.
  - pose proof (isZero_false_spec x Hx) as Hnz.
    apply Prim2SF_inj. rewrite add_spec, Hz.
    destruct (Prim2SF x) as [sx|sx| |sx mx ex]; try reflexivity.
    now destruct (Hnz sx).
Qed.

Lemma add_sameNumber (x x' y y' : float) :
  sameNumber x x' -> sameNumber y y' -> sameNumber (x + y) (x' + y').
Proof.
  intros [->|[Hx Hx']] [->|[Hy Hy']].
  - now left.
  - pose proof (add_zero_r x' y Hy) as E. pose proof (add_zero_r x' y' Hy') as E'.
    destruct (isZero x'); [right; now split | left; congruence].
  - pose proof (add_zero_l x y' Hx) as E. pose proof (add_zero_l x' y' Hx') as E'.
    destruct (isZero y'); [right; now split | left; congruence].
  - pose proof (add_zero_r x y Hy) as E. pose proof (add_zero_r x' y' Hy') as E'.
    rewrite Hx in E. rewrite Hx' in E'. right. now split.
Qed.

Lemma ltb_sameNumber_l (x y t : float) :
  sameNumber x y -> PrimFloat.ltb x t = PrimFloat.ltb y t.
Proof.
  intros [->|[Hx Hy]]; [reflexivity|].
  apply isZero_spec in Hx. apply isZero_spec in Hy.
  destruct Hx as [sx Hx], Hy as [sy Hy].
  rewrite !FloatAxioms.ltb_spec, Hx, Hy. unfold SFltb.
  destruct (Prim2SF t); reflexivity.
Qed.

Lemma ltb_sameNumber_r (x y t : float) :
  sameNumber x y -> PrimFloat.ltb t x = PrimFloat.ltb t y.
Proof.
  intros [->|[Hx Hy]]; [reflexivity|].
  apply isZero_spec in Hx. apply isZero_spec in Hy.
  destruct Hx as [sx Hx], Hy as [sy Hy].
  rewrite !FloatAxioms.ltb_spec, Hx, Hy. unfold SFltb.
  destruct (Prim2SF t); reflexivity.
Qed.

(* ===================================================================== *)
(** ** Properties of the direction geometry *)
(* ===================================================================== *)

Lemma directionAt_spec (cx cy : float) :
  directionAt cx cy = DirectionSpec.phrase cx cy.
Proof.
  unfold directionAt, DirectionSpec.phrase, verticalOf, horizontalOf, gt,
    DirectionSpec.vertical, DirectionSpec.horizontal.
  destruct (PrimFloat.ltb cy 0.3), (PrimFloat.ltb 0.7 cy),
    (PrimFloat.ltb cx 0.3), (PrimFloat.ltb 0.7 cx); reflexivity.
Qed.

(** For every box, the code's phrase is the specification's phrase at the
    centre the code computes (absent or falsy fields count as [0]). *)
Lemma directionOf_spec (box : BoundingBox) :
  directionOf box = DirectionSpec.phrase (centerX box) (centerY box).
Proof. apply directionAt_spec. Qed.

Lemma directionAt_sameNumber (cx cx' cy cy' : float) :
  sameNumber cx cx' -> sameNumber cy cy' -> directionAt cx cy = directionAt cx' cy'.
Proof.
  intros Hx Hy. unfold directionAt, verticalOf, horizontalOf, gt.
  rewrite (ltb_sameNumber_l cx cx' _ Hx), (ltb_sameNumber_r cx cx' _ Hx).
  rewrite (ltb_sameNumber_l cy cy' _ Hy), (ltb_sameNumber_r cy cy' _ Hy).
  reflexivity.
Qed.

Lemma center_sameNumber (a b : float) :
  PrimFloat.is_nan a = false -> PrimFloat.is_nan b = false ->
  sameNumber (JS.orNum (Some a) 0 + JS.orNum (Some b) 0 / 2) (a + b / 2).
Proof.
  intros Ha Hb. apply add_sameNumber.
  - now apply orNum_sameNumber.
  - apply half_sameNumber. now apply orNum_sameNumber.
Qed.

(** C7. For a bounding box whose four coordinates are numbers, the
    direction phrase is the one the specification prescribes for the centre
    [(left + width/2, top + height/2)]: "on your left" / "on your right" /
    "in front of you" by [cx < 0.3], [cx > 0.7], otherwise; "above" /
    "below" / none by [cy < 0.3], [cy > 0.7], otherwise; joined with " and "
    when the horizontal is not centred, with a space when it is.  The centres
    (0.1, 0.1) and (0.9, 0.9) give "above and on your left" and "below and on
    your right". *)
Theorem direction_phrase_from_center :
  forall left top width height : float,
    PrimFloat.is_nan left = false ->
    PrimFloat.is_nan top = false ->
    PrimFloat.is_nan width = false ->
    PrimFloat.is_nan height = false ->
    directionOf (mkBox (Some width) (Some height) (Some left) (Some top))
    = DirectionSpec.phrase (left + width / 2) (top + height / 2) /\
    directionAt 0.1 0.1 = "above and on your left" /\
    directionAt 0.9 0.9 = "below and on your right".
Proof.
  intros left top width height Hl Ht Hw Hh.
  split; [|split; reflexivity].
  rewrite <- directionAt_spec. unfold directionOf, centerX, centerY. simpl.
  apply directionAt_sameNumber; now apply center_sameNumber.
Qed.

Lemma direction_phrase_from_center_witness :
  directionOf (mkBox (Some 0.1%float) (Some 0.1%float) (Some 0.05%float) (Some 0.05%float))
  = DirectionSpec.phrase (0.05 + 0.1 / 2) (0.05 + 0.1 / 2) /\
  directionAt 0.1 0.1 = "above and on your left" /\
  directionAt 0.9 0.9 = "below and on your right".
Proof.
  apply (direction_phrase_from_center 0.05 0.05 0.1 0.1); reflexivity.
Defined.

(* ===================================================================== *)
(** ** Properties of the sentence assembly *)
(* ===================================================================== *)

Lemma append_assoc (a b c : string) : (a ++ b) ++ c = a ++ (b ++ c).
Proof. induction a as [|ch a IH]; simpl; [reflexivity | now rewrite IH]. Qed.

Lemma append_empty_r (a : string) : a ++ "" = a.
Proof. induction a as [|ch a IH]; simpl; [reflexivity | now rewrite IH]. Qed.

Lemma describeLabel_clause (realDistance : option float) (description : string)
      (label : Label) (index : nat) :
  describeLabel realDistance description label index
  = description ++ objectClause realDistance label index.
Proof.
  unfold describeLabel, objectClause, distanceClause, directionClause,
    connective, narratedName.
  destruct (objectDistanceAndDirection label) as [objectDistance direction].
  cbn [fst snd].
  destruct (index =? 0)%nat,
    (JS.truthyStr objectDistance && negb (JS.truthyNullable realDistance)),
    (JS.truthyStr direction);
    rewrite ?append_assoc, ?append_empty_r; cbn [append]; reflexivity.
Qed.

Lemma forEachFrom_listing (realDistance : option float) (labels : list Label) :
  forall (index : nat) (description : string),
    JS.forEachFrom (describeLabel realDistance) labels index description
    = description ++ listingFrom (objectClause realDistance) labels index.
Proof.
  induction labels as [|label rest IH]; intros index description; simpl.
  - now rewrite append_empty_r.
  - rewrite IH, describeLabel_clause. apply append_assoc.
Qed.

Lemma listingFrom_ext (f g : Label -> nat -> string) (labels : list Label) :
  Forall (fun label => forall index, f label index = g label index) labels ->
  forall index, listingFrom f labels index = listingFrom g labels index.
Proof.
  induction 1 as [|label rest Hlabel _ IH]; intros index; simpl.
  - reflexivity.
  - now rewrite Hlabel, IH.
Qed.

Section SynthesisFacts.
Variable Math_round : float -> float.
Variable Number_toString : float -> string.

Lemma describe_nonempty (objects : list Label) (realDistance : option float) :
  objects <> [] ->
  describe Math_round Number_toString objects realDistance
  = leadingClause Math_round Number_toString realDistance
      ++ listingFrom (objectClause realDistance) (topObjects objects) 0 ++ ".".
Proof.
  intros Hne. unfold describe.
  destruct objects as [|o objects]; [congruence|].
  cbn [List.length Nat.ltb Nat.leb]. unfold JS.forEach.
  rewrite forEachFrom_listing. apply append_assoc.
Qed.

End SynthesisFacts.

Lemma directionAt_truthy (cx cy : float) : JS.truthyStr (directionAt cx cy) = true.
Proof.
  unfold directionAt, verticalOf, horizontalOf, gt.
  destruct (PrimFloat.ltb cy 0.3), (PrimFloat.ltb 0.7 cy),
    (PrimFloat.ltb cx 0.3), (PrimFloat.ltb 0.7 cx); reflexivity.
Qed.

Lemma objectDistanceOf_truthy (boxArea : float) :
  JS.truthyStr (objectDistanceOf boxArea) = true.
Proof.
  unfold objectDistanceOf.
  destruct (gt boxArea 0.3), (gt boxArea 0.15), (gt boxArea 0.08), (gt boxArea 0.04);
    reflexivity.
Qed.

Lemma directionClause_box (label : Label) (instance : Instance)
      (rest : list Instance) (box : BoundingBox) :
  Instances label = Some (instance :: rest) ->
  Box instance = Some box ->
  directionClause label = " " ++ directionOf box.
Proof.
  intros Hi Hb. unfold directionClause, objectDistanceAndDirection.
  rewrite Hi, Hb. cbn [snd]. unfold directionOf.
  now rewrite directionAt_truthy.
Qed.

Lemma distanceClause_measured (distance : float) (label : Label) :
  JS.truthyNum distance = true -> distanceClause (Some distance) label = "".
Proof.
  intros Ht. unfold distanceClause. cbn [JS.truthyNullable]. rewrite Ht.
  now rewrite andb_false_r.
Qed.

(** C3. With no filtered object, the synthesis returns the fixed fallback
    sentence, character for character, whatever the measured distance. *)
Theorem empty_input_fallback :
  forall (Math_round : float -> float) (Number_toString : float -> string)
         (realDistance : option float),
    describe Math_round Number_toString [] realDistance
    = "No specific objects detected. Try pointing at a clear object like a person, chair, or bottle.".
Proof. reflexivity. Qed.

(** C1, as the code has it.  For the two labels "chair" (one instance with
    box [{left: 0.1, top: 0.4, width: 0.3, height: 0.3}]) and "interior
    design" (one instance, whatever it is) and no measured distance, the
    filter keeps the chair alone, and the sentence puts the chair in the
    "8 to 10 feet" bucket: its box area is 0.09, above 0.08 and not above
    0.15. *)
Theorem end_to_end_scenario :
  forall (Math_round : float -> float) (Number_toString : float -> string)
         (instance : Instance),
    physicalObjects [Sample.chair; Sample.interiorDesign instance] = [Sample.chair] /\
    describeLabels Math_round Number_toString
                   [Sample.chair; Sample.interiorDesign instance] None
    = "Objects detected. I see a chair about 8 to 10 feet away on your left.".
Proof. intros. split; reflexivity. Qed.

(** C1, as the specification has it, fails: on the scenario's input the
    sentence is not the one with "4 to 6 feet". *)
Lemma end_to_end_scenario_counterexample :
  (forall (Math_round : float -> float) (Number_toString : float -> string),
      describeLabels Math_round Number_toString
        [Sample.chair; Sample.interiorDesign (mkInstance (Some Sample.fullFrame) None)] None
      = "Objects detected. I see a chair about 8 to 10 feet away on your left.") /\
  (forall (Math_round : float -> float) (Number_toString : float -> string),
      describeLabels Math_round Number_toString
        [Sample.chair; Sample.interiorDesign (mkInstance (Some Sample.fullFrame) None)] None
      <> "Objects detected. I see a chair about 4 to 6 feet away on your left.").
Proof. split; intros; [reflexivity | discriminate]. Qed.

(** C2, as the code has it.  For a non-empty list of filtered objects and
    a measured distance that is a non-zero number, the sentence is the
    measured leading clause followed, for each of the first three objects, by
    the connective, the name and the direction clause, and a final period:
    no " about ... away" clause is appended for any object, and the direction
    clause of an object whose first instance has a bounding box is that
    box's direction phrase. *)
Theorem measured_distance_suppresses_object_distances :
  forall (Math_round : float -> float) (Number_toString : float -> string)
         (objects : list Label) (distance : float),
    objects <> [] ->
    JS.truthyNum distance = true ->
    describe Math_round Number_toString objects (Some distance)
    = "Objects are approximately "
        ++ Number_toString (Math_round (distance * 10) / 10)%float ++ " feet away. "
        ++ listingFrom (fun label index =>
                          connective index ++ narratedName label ++ directionClause label)
                       (topObjects objects) 0
        ++ "." /\
    Forall (fun label => distanceClause (Some distance) label = "") objects /\
    Forall (fun label =>
              forall instance rest box,
                Instances label = Some (instance :: rest) ->
                Box instance = Some box ->
                directionClause label = " " ++ directionOf box) objects.
Proof.
  intros Math_round Number_toString objects distance Hne Htruthy.
  split; [|split].
  - rewrite describe_nonempty by assumption. unfold leadingClause.
    rewrite !append_assoc. do 3 f_equal. f_equal.
    apply listingFrom_ext. apply Forall_forall. intros label _ index.
    unfold objectClause. now rewrite distanceClause_measured.
  - apply Forall_forall. intros label _. now apply distanceClause_measured.
  - apply Forall_forall. intros label _ instance rest box.
    apply directionClause_box.
Qed.

Lemma measured_distance_suppresses_object_distances_witness :
  describe Sample.Math_round Sample.Number_toString
           [Sample.chair; Sample.chairWithoutBox] (Some 4.2%float)
  = "Objects are approximately "
      ++ Sample.Number_toString (Sample.Math_round (4.2 * 10) / 10)%float ++ " feet away. "
      ++ listingFrom (fun label index =>
                        connective index ++ narratedName label ++ directionClause label)
                     (topObjects [Sample.chair; Sample.chairWithoutBox]) 0
      ++ "." /\
  Forall (fun label => distanceClause (Some 4.2%float) label = "")
         [Sample.chair; Sample.chairWithoutBox] /\
  Forall (fun label =>
            forall instance rest box,
              Instances label = Some (instance :: rest) ->
              Box instance = Some box ->
              directionClause label = " " ++ directionOf box)
         [Sample.chair; Sample.chairWithoutBox].
Proof.
  apply (measured_distance_suppresses_object_distances
           Sample.Math_round Sample.Number_toString
           [Sample.chair; Sample.chairWithoutBox] 4.2%float).
  - discriminate.
  - reflexivity.
Defined.

(** C2, as the specification has it, fails twice.  A narrated object whose
    first instance has no bounding box gets no direction phrase; and with a
    measured distance of [0] the leading clause reports the measurement and
    every object still gets its own " about ... away" clause. *)
Lemma measured_distance_counterexample :
  (forall (Math_round : float -> float) (Number_toString : float -> string),
      describe Math_round Number_toString [Sample.chairWithoutBox] (Some 4.2%float)
      = "Objects are approximately "
          ++ Number_toString (Math_round (4.2 * 10) / 10)%float
          ++ " feet away. I see a chair.") /\
  (forall (Math_round : float -> float) (Number_toString : float -> string),
      describe Math_round Number_toString [Sample.chair] (Some 0%float)
      = "Objects are approximately "
          ++ Number_toString (Math_round (0 * 10) / 10)%float
          ++ " feet away. I see a chair about 8 to 10 feet away on your left.").
Proof.
  split; intros; rewrite describe_nonempty by discriminate;
    unfold leadingClause; rewrite !append_assoc; reflexivity.
Qed.

Lemma objectClause_keepFirstInstance (realDistance : option float)
      (label : Label) (index : nat) :
  objectClause realDistance (keepFirstInstance label) index
  = objectClause realDistance label index.
Proof.
  unfold objectClause, distanceClause, directionClause, narratedName,
    objectDistanceAndDirection, keepFirstInstance.
  destruct label as [name conf [[|instance rest]|]]; reflexivity.
Qed.

Lemma listingFrom_map (f : Label -> nat -> string) (g : Label -> Label)
      (labels : list Label) :
  forall index,
    listingFrom f (map g labels) index
    = listingFrom (fun label i => f (g label) i) labels index.
Proof.
  induction labels as [|label rest IH]; intros index; simpl.
  - reflexivity.
  - now rewrite IH.
Qed.

Lemma topObjects_map (g : Label -> Label) (objects : list Label) :
  topObjects (map g objects) = map g (topObjects objects).
Proof. unfold topObjects, JS.slice0. apply firstn_map. Qed.

(** C10. Only the first instance of a narrated object is consulted.
    Dropping every further instance of every object leaves the sentence
    unchanged; when the first instance has no bounding box the object gets
    its connective and name and nothing else; when it has one, the distance
    bucket is the one of that box's area and the direction phrase the one of
    that box. *)
Theorem only_first_instance_is_consulted :
  forall (Math_round : float -> float) (Number_toString : float -> string),
    (forall (objects : list Label) (realDistance : option float),
        describe Math_round Number_toString (map keepFirstInstance objects) realDistance
        = describe Math_round Number_toString objects realDistance) /\
    (forall (realDistance : option float) (description : string)
            (name : option string) (confidence instanceConfidence : option float)
            (rest : list Instance) (index : nat),
        describeLabel realDistance description
          (mkLabel name confidence (Some (mkInstance None instanceConfidence :: rest))) index
        = description ++ connective index
            ++ JS.orStr (option_map JS.toLowerCase name) "object") /\
    (forall (realDistance : option float) (description : string)
            (name : option string) (confidence instanceConfidence : option float)
            (box : BoundingBox) (rest : list Instance) (index : nat),
        describeLabel realDistance description
          (mkLabel name confidence (Some (mkInstance (Some box) instanceConfidence :: rest)))
          index
        = description ++ connective index
            ++ JS.orStr (option_map JS.toLowerCase name) "object"
            ++ (if JS.truthyNullable realDistance then ""
                else " about " ++ objectDistanceOf (boxArea box) ++ " away")
            ++ " " ++ directionOf box).
Proof.
  intros Math_round Number_toString. split; [|split].
  - intros objects realDistance.
    destruct objects as [|o objects]; [reflexivity|].
    rewrite !describe_nonempty by discriminate.
    rewrite topObjects_map, listingFrom_map. do 2 f_equal.
    apply listingFrom_ext. apply Forall_forall. intros label _ index.
    apply objectClause_keepFirstInstance.
  - intros. rewrite describeLabel_clause.
    unfold objectClause, distanceClause, directionClause, narratedName,
      objectDistanceAndDirection. simpl.
    now rewrite !append_empty_r.
  - intros. rewrite describeLabel_clause.
    unfold objectClause, distanceClause, directionClause, narratedName,
      objectDistanceAndDirection.
    cbn [Instances Box Name fst snd].
    unfold directionOf. rewrite directionAt_truthy, objectDistanceOf_truthy.
    destruct (JS.truthyNullable realDistance); reflexivity.
Qed.

(* ===================================================================== *)
(** ** Properties of the capture cycle *)
(* ===================================================================== *)

Lemma speakText_run (w : Collaborators) (text : string) (s : HomeScreen) :
  speakText w text s = (Normal tt, s, announcement w text).
Proof.
  unfold speakText, announcement, tryCatch, bind, emit, throw.
  destruct (speechResponse w text); reflexivity.
Qed.

Lemma announcement_quiet (w : Collaborators) (text : string) :
  existsb isUpload (announcement w text) = false /\
  existsb isAnalysis (announcement w text) = false /\
  existsb isDepthReading (announcement w text) = false.
Proof. unfold announcement. destruct (speechResponse w text); auto. Qed.

Section CycleFacts.
Variable Math_round : float -> float.
Variable Number_toString : float -> string.

Lemma takePicture_cancelled (w : Collaborators) (s : HomeScreen) (error : JsError) :
  analyzing s = false ->
  cameraModule w = true ->
  cameraResponse w = inl error ->
  code error = Some "CANCELLED" ->
  takePicture Math_round Number_toString w s
  = (Normal tt,
     mkHomeScreen false "" (hasLiDAR s) (arSessionActive s),
     SetAnalyzing true
       :: (announcement w "Opening camera"
             ++ [CameraTakePicture; SetResult ""; SetAnalyzing false; SetAnalyzing false])%list).
Proof.
  intros Hidle Hcamera Hcancel Hcode.
  unfold takePicture, bind, getState. rewrite Hidle, Hcamera. cbn [orb negb].
  unfold setAnalyzing at 1. rewrite speakText_run.
  unfold tryFinally, tryCatch, analyse, bind, emit. rewrite Hcancel.
  cbn [await throw]. unfold onError, isCancelled. rewrite Hcode.
  rewrite String.eqb_refl. reflexivity.
Qed.

Lemma realDistance_run (w : Collaborators) (s s' : HomeScreen) :
  hasLiDAR s' = hasLiDAR s ->
  (if hasLiDAR s then getARKitDistance w else ret None) s'
  = (Normal (measuredDistance w s), s', depthEvents w s).
Proof.
  intros Hsame.
  unfold measuredDistance, depthEvents, getARKitDistance, tryCatch, bind,
    getState, emit, await, ret, throw.
  destruct (hasLiDAR s) eqn:Hl; [|reflexivity].
  rewrite Hsame. destruct (arkitModule w); [|reflexivity].
  destruct (depthResponse w); reflexivity.
Qed.

(** A cycle in which capture, decoding, upload and detection all succeed
    ends with the synthesised sentence displayed and handed to the speech
    collaborator. *)
Lemma takePicture_analysed (w : Collaborators) (s : HomeScreen)
      (b binaryString : string) (labels : option (list Label)) :
  analyzing s = false ->
  cameraModule w = true ->
  cameraResponse w = inr (Some (mkPhoto (Some b))) ->
  JS.truthyStr b = true ->
  atobResponse w b = inr binaryString ->
  s3Response w (analysisKey (dateNow w)) = None ->
  rekognitionResponse w (analysisKey (dateNow w)) = inr labels ->
  let allLabels := match labels with Some ls => ls | None => [] end in
  let description :=
    describe Math_round Number_toString (physicalObjects allLabels) (measuredDistance w s) in
  takePicture Math_round Number_toString w s
  = (Normal tt,
     mkHomeScreen false description (hasLiDAR s) (arSessionActive s),
     SetAnalyzing true
       :: (announcement w "Opening camera"
           ++ [CameraTakePicture; SetResult "Analyzing image..."]
           ++ announcement w "Analyzing"
           ++ [S3PutObject (analysisKey (dateNow w)) (list_ascii_of_string binaryString);
               RekognitionDetectLabels (analysisKey (dateNow w))]
           ++ depthEvents w s
           ++ [SetResult description]
           ++ announcement w description
           ++ [SetAnalyzing false])%list).
Proof.
  intros Hidle Hcamera Hphoto Hb Hatob Hs3 Hdetect allLabels description.
  unfold takePicture, bind, getState. rewrite Hidle, Hcamera. cbn [orb negb].
  unfold setAnalyzing at 1. rewrite speakText_run.
  unfold tryFinally, tryCatch, analyse, bind, emit, getState, base64ToUint8Array, bind.
  rewrite Hphoto. cbn [await ret]. rewrite Hb. cbn [ret setResult].
  rewrite speakText_run, Hatob. cbn [await ret]. rewrite Hs3, Hdetect.
  cbn [await ret hasLiDAR analyzing result arSessionActive].
  erewrite realDistance_run by reflexivity.
  cbn [setResult analyzing result hasLiDAR arSessionActive].
  rewrite speakText_run.
  unfold setAnalyzing. cbn [analyzing result hasLiDAR arSessionActive].
  subst description allLabels. f_equal.
  repeat (rewrite <- ?app_assoc; cbn [app]). reflexivity.
Qed.

End CycleFacts.

(** C9. When the capture collaborator reports a cancelled capture, the
    cycle ends normally after the capture request with the result text
    cleared and [analyzing] reset.  Nothing is uploaded, analysed or read
    from the depth sensor; the only text spoken is the "Opening camera"
    announcement that precedes the capture; the only result text set is the
    empty one; and an alert is shown only if the speech collaborator itself
    failed on that announcement. *)
Theorem cancelled_capture_aborts_silently :
  forall (Math_round : float -> float) (Number_toString : float -> string)
         (w : Collaborators) (s : HomeScreen) (error : JsError),
    analyzing s = false ->
    cameraModule w = true ->
    cameraResponse w = inl error ->
    code error = Some "CANCELLED" ->
    let '(completion, s', events) := takePicture Math_round Number_toString w s in
    completion = Normal tt /\
    result s' = "" /\
    analyzing s' = false /\
    events = SetAnalyzing true
               :: (announcement w "Opening camera"
                   ++ [CameraTakePicture; SetResult ""; SetAnalyzing false;
                       SetAnalyzing false])%list /\
    existsb isUpload events = false /\
    existsb isAnalysis events = false /\
    existsb isDepthReading events = false /\
    Forall (fun ev =>
              match ev with
              | SpeechSpeak text => text = "Opening camera"
              | SetResult text => text = ""
              | AlertShown _ _ => speechResponse w "Opening camera" <> SpeechOk
              | _ => True
              end) events.
Proof.
  intros Math_round Number_toString w s error Hidle Hcamera Hcancel Hcode.
  rewrite (takePicture_cancelled Math_round Number_toString w s error)
    by assumption.
  destruct (announcement_quiet w "Opening camera") as (Hup & Han & Hdepth).
  repeat split.
  - cbn [existsb isUpload orb]. rewrite existsb_app, Hup. reflexivity.
  - cbn [existsb isAnalysis orb]. rewrite existsb_app, Han. reflexivity.
  - cbn [existsb isDepthReading orb]. rewrite existsb_app, Hdepth. reflexivity.
  - constructor; [exact I|]. apply Forall_app. split.
    + unfold announcement.
      destruct (speechResponse w "Opening camera");
        repeat constructor; discriminate.
    + repeat constructor.
Qed.

Lemma cancelled_capture_aborts_silently_witness :
  let '(completion, s', events) :=
    takePicture Sample.Math_round Sample.Number_toString
                SampleCycle.cancelledCapture SampleCycle.usedScreen in
  completion = Normal tt /\
  result s' = "" /\
  analyzing s' = false /\
  events = SetAnalyzing true
             :: (announcement SampleCycle.cancelledCapture "Opening camera"
                 ++ [CameraTakePicture; SetResult ""; SetAnalyzing false;
                     SetAnalyzing false])%list /\
  existsb isUpload events = false /\
  existsb isAnalysis events = false /\
  existsb isDepthReading events = false /\
  Forall (fun ev =>
            match ev with
            | SpeechSpeak text => text = "Opening camera"
            | SetResult text => text = ""
            | AlertShown _ _ =>
                speechResponse SampleCycle.cancelledCapture "Opening camera" <> SpeechOk
            | _ => True
            end) events.
Proof.
  apply (cancelled_capture_aborts_silently
           Sample.Math_round Sample.Number_toString
           SampleCycle.cancelledCapture SampleCycle.usedScreen SampleCycle.cancelled);
    reflexivity.
Defined.

(** C8. The synthesised sentence is a function of the filtered objects
    and the measured distance alone.  Two cycles that reach the synthesis
    with the same filtered objects and the same measured distance, from any
    two screen states and with any two sets of collaborator answers (photo,
    time stamp, unfiltered labels, speech outcomes), display and hand to the
    speech collaborator the same sentence, [describe objects realDistance]. *)
Theorem synthesis_is_deterministic :
  forall (Math_round : float -> float) (Number_toString : float -> string)
         (w1 w2 : Collaborators) (s1 s2 : HomeScreen)
         (objects : list Label) (realDistance : option float),
    reachesSynthesis w1 s1 objects realDistance ->
    reachesSynthesis w2 s2 objects realDistance ->
    let '(_, s1', events1) := takePicture Math_round Number_toString w1 s1 in
    let '(_, s2', events2) := takePicture Math_round Number_toString w2 s2 in
    result s1' = result s2' /\
    result s1' = describe Math_round Number_toString objects realDistance /\
    endsWith w1 (describe Math_round Number_toString objects realDistance) events1 /\
    endsWith w2 (describe Math_round Number_toString objects realDistance) events2.
Proof.
  intros Math_round Number_toString w1 w2 s1 s2 objects realDistance
         (Hidle1 & Hcam1 & b1 & bin1 & labels1 & Hp1 & Hb1 & Ha1 & Hs1 & Hd1 & Ho1 & Hm1)
         (Hidle2 & Hcam2 & b2 & bin2 & labels2 & Hp2 & Hb2 & Ha2 & Hs2 & Hd2 & Ho2 & Hm2).
  rewrite (takePicture_analysed Math_round Number_toString w1 s1 b1 bin1 labels1)
    by assumption.
  rewrite (takePicture_analysed Math_round Number_toString w2 s2 b2 bin2 labels2)
    by assumption.
  cbv zeta. rewrite Ho1, Ho2, Hm1, Hm2. cbn [result].
  split; [reflexivity|]. split; [reflexivity|].
  split.
  - exists (SetAnalyzing true
              :: announcement w1 "Opening camera"
              ++ [CameraTakePicture; SetResult "Analyzing image..."]
              ++ announcement w1 "Analyzing"
              ++ [S3PutObject (analysisKey (dateNow w1)) (list_ascii_of_string bin1);
                  RekognitionDetectLabels (analysisKey (dateNow w1))]
              ++ depthEvents w1 s1)%list.
    repeat (rewrite <- ?app_assoc; cbn [app]). reflexivity.
  - exists (SetAnalyzing true
              :: announcement w2 "Opening camera"
              ++ [CameraTakePicture; SetResult "Analyzing image..."]
              ++ announcement w2 "Analyzing"
              ++ [S3PutObject (analysisKey (dateNow w2)) (list_ascii_of_string bin2);
                  RekognitionDetectLabels (analysisKey (dateNow w2))]
              ++ depthEvents w2 s2)%list.
    repeat (rewrite <- ?app_assoc; cbn [app]). reflexivity.
Qed.

Lemma synthesis_is_deterministic_witness :
  let '(_, s1', events1) :=
    takePicture Sample.Math_round Sample.Number_toString
                SampleCycle.chairAndScene SampleCycle.freshScreen in
  let '(_, s2', events2) :=
    takePicture Sample.Math_round Sample.Number_toString
                SampleCycle.chairAlone SampleCycle.usedScreen in
  result s1' = result s2' /\
  result s1' = describe Sample.Math_round Sample.Number_toString [Sample.chair] None /\
  endsWith SampleCycle.chairAndScene
           (describe Sample.Math_round Sample.Number_toString [Sample.chair] None) events1 /\
  endsWith SampleCycle.chairAlone
           (describe Sample.Math_round Sample.Number_toString [Sample.chair] None) events2.
Proof.
  apply (synthesis_is_deterministic
           Sample.Math_round Sample.Number_toString
           SampleCycle.chairAndScene SampleCycle.chairAlone
           SampleCycle.freshScreen SampleCycle.usedScreen [Sample.chair] None).
  - split; [reflexivity|]. split; [reflexivity|].
    exists "QUJD", "ABC",
      (Some [Sample.chair; Sample.interiorDesign (mkInstance (Some Sample.fullFrame) None)]).
    repeat split; reflexivity.
  - split; [reflexivity|]. split; [reflexivity|].
    exists "REVG", "DEF", (Some [Sample.chair]).
    repeat split; reflexivity.
Defined.

(** *** The cycle on concrete answers *)

(** While a cycle is in flight, or without a camera module, [takePicture]
    does nothing. *)
Lemma takePicture_busy (Math_round : float -> float) (Number_toString : float -> string)
      (w : Collaborators) (s : HomeScreen) :
  analyzing s || negb (cameraModule w) = true ->
  takePicture Math_round Number_toString w s = (Normal tt, s, []).
Proof.
  intros Hbusy. unfold takePicture, bind, getState. rewrite Hbusy. reflexivity.
Qed.

Example takePicture_chairAndScene :
  takePicture Sample.Math_round Sample.Number_toString
              SampleCycle.chairAndScene SampleCycle.freshScreen
  = (Normal tt,
     mkHomeScreen false
       "Objects detected. I see a chair about 8 to 10 feet away on your left."
       false false,
     [SetAnalyzing true; SpeechStop; SpeechSpeak "Opening camera";
      CameraTakePicture; SetResult "Analyzing image..."; SpeechStop;
      SpeechSpeak "Analyzing";
      S3PutObject "analysis/1700000000000.jpg" ["A"%char; "B"%char; "C"%char];
      RekognitionDetectLabels "analysis/1700000000000.jpg";
      SetResult "Objects detected. I see a chair about 8 to 10 feet away on your left.";
      SpeechStop;
      SpeechSpeak "Objects detected. I see a chair about 8 to 10 feet away on your left.";
      SetAnalyzing false]).
Proof. reflexivity. Qed.

Example takePicture_cancelledCapture :
  takePicture Sample.Math_round Sample.Number_toString
              SampleCycle.cancelledCapture SampleCycle.usedScreen
  = (Normal tt,
     mkHomeScreen false "" true true,
     [SetAnalyzing true; SpeechStop; SpeechSpeak "Opening camera";
      CameraTakePicture; SetResult ""; SetAnalyzing false; SetAnalyzing false]).
Proof. reflexivity. Qed.

(* ===================================================================== *)
(** ** The cycle, path by path *)
(* ===================================================================== *)

(** Brings two event lists to the same bracketing. *)
Ltac tidy_events :=
  cbn [fst snd analyzing result hasLiDAR arSessionActive];
  repeat (rewrite <- ?app_assoc; cbn [app]);
  rewrite ?app_nil_r;
  reflexivity.

Section CyclePaths.
Variable Math_round : float -> float.
Variable Number_toString : float -> string.

(** The [try] block in direct style: what it throws, if anything, the
    result text it leaves, and its events. *)
Definition attempt (w : Collaborators) (s : HomeScreen)
  : option JsError * string * list Event :=
  let key := analysisKey (dateNow w) in
  match cameraResponse w with
  | inl e => (Some e, result s, [CameraTakePicture])
  | inr photo =>
      match usableBase64 photo with
      | None => (Some (newError "No image data"), result s, [CameraTakePicture])
      | Some b =>
          let started :=
            CameraTakePicture :: SetResult "Analyzing image..."
              :: announcement w "Analyzing" in
          match atobResponse w b with
          | inl e => (Some e, "Analyzing image...", started)
          | inr binaryString =>
              let uploaded :=
                (started ++ [S3PutObject key (list_ascii_of_string binaryString)])%list in
              match s3Response w key with
              | Some e => (Some e, "Analyzing image...", uploaded)
              | None =>
                  match rekognitionResponse w key with
                  | inl e =>
                      (Some e, "Analyzing image...",
                       (uploaded ++ [RekognitionDetectLabels key])%list)
                  | inr labels =>
                      let allLabels := match labels with Some ls => ls | None => [] end in
                      let description :=
                        describe Math_round Number_toString
                                 (physicalObjects allLabels) (measuredDistance w s) in
                      (None, description,
                       (uploaded ++ RekognitionDetectLabels key :: depthEvents w s
                          ++ SetResult description :: announcement w description)%list)
                  end
              end
          end
      end
  end.

(** The [catch] block in direct style: the result text it leaves and its
    events. *)
Definition recovery (w : Collaborators) (thrown : option JsError) (text : string)
  : string * list Event :=
  match thrown with
  | None => (text, [])
  | Some e =>
      if isCancelled e then ("", [SetResult ""; SetAnalyzing false])
      else ("Analysis failed: " ++ errorDetails e,
            SetResult ("Analysis failed: " ++ errorDetails e) :: announcement w apology)
  end.

Lemma analyse_run (w : Collaborators) (s : HomeScreen) :
  analyse Math_round Number_toString w s
  = (match fst (fst (attempt w s)) with
     | None => Normal tt
     | Some e => Throw e
     end,
     mkHomeScreen (analyzing s) (snd (fst (attempt w s))) (hasLiDAR s) (arSessionActive s),
     snd (attempt w s)).
Proof.
  unfold analyse, attempt, bind, emit, getState, base64ToUint8Array, bind, usableBase64.
  destruct (cameraResponse w) as [e|photo]; cbn [await throw ret];
    [destruct s; reflexivity|].
  destruct photo as [[[b|]]|]; [destruct (JS.truthyStr b) eqn:Hb|..];
    cbn [ret throw]; try (destruct s; reflexivity).
  cbn [setResult]. rewrite speakText_run.
  destruct (atobResponse w b) as [e|binaryString]; cbn [await throw ret].
  { tidy_events. }
  destruct (s3Response w (analysisKey (dateNow w))) as [e|]; cbn [await throw ret].
  { tidy_events. }
  destruct (rekognitionResponse w (analysisKey (dateNow w))) as [e|labels];
    cbn [await throw ret].
  { tidy_events. }
  cbn [hasLiDAR analyzing result arSessionActive].
  erewrite realDistance_run by reflexivity.
  cbn [setResult analyzing result hasLiDAR arSessionActive].
  rewrite speakText_run.
  tidy_events.
Qed.

(** Every cycle that starts runs to its end: the state and the events are
    those of the [try] block followed by those of the [catch] block, with
    [analyzing] raised before and reset after. *)
Lemma takePicture_run (w : Collaborators) (s : HomeScreen) :
  analyzing s = false ->
  cameraModule w = true ->
  takePicture Math_round Number_toString w s
  = (Normal tt,
     mkHomeScreen false
       (fst (recovery w (fst (fst (attempt w s))) (snd (fst (attempt w s)))))
       (hasLiDAR s) (arSessionActive s),
     SetAnalyzing true
       :: (announcement w "Opening camera"
           ++ snd (attempt w s)
           ++ snd (recovery w (fst (fst (attempt w s))) (snd (fst (attempt w s))))
           ++ [SetAnalyzing false])%list).
Proof.
  intros Hidle Hcamera.
  unfold takePicture, bind, getState. rewrite Hidle, Hcamera. cbn [orb negb].
  unfold setAnalyzing at 1. rewrite speakText_run.
  unfold tryFinally, tryCatch. rewrite analyse_run.
  cbn [analyzing result hasLiDAR arSessionActive].
  change (attempt w (mkHomeScreen true (result s) (hasLiDAR s) (arSessionActive s)))
    with (attempt w s).
  destruct (attempt w s) as [[thrown text] events]. cbn [fst snd].
  destruct thrown as [e|]; unfold recovery.
  - unfold onError, apology. destruct (isCancelled e);
      unfold bind, setResult, setAnalyzing; rewrite ?speakText_run; f_equal; tidy_events.
  - unfold setAnalyzing. f_equal; tidy_events.
Qed.

End CyclePaths.

(* ===================================================================== *)
(** ** More on the filter *)
(* ===================================================================== *)

Lemma filterName_loweredName (label : Label) :
  JS.orStr (option_map JS.toLowerCase (Name label)) "" = loweredName label.
Proof.
  unfold loweredName. destruct (Name label) as [name|]; simpl; [|reflexivity].
  apply orStr_empty_default.
Qed.

Lemma hasInstances_iff (label : Label) :
  hasInstances label = true <->
  exists instance rest, Instances label = Some (instance :: rest).
Proof.
  split; [apply hasInstances_first|].
  intros (instance & rest & H). unfold hasInstances. now rewrite H.
Qed.

Lemma existsb_false_iff {A : Type} (f : A -> bool) (xs : list A) :
  existsb f xs = false <-> forall x, In x xs -> f x = false.
Proof.
  induction xs as [|y xs IH]; simpl.
  - split; [intros _ x [] | reflexivity].
  - rewrite orb_false_iff, IH. split.
    + intros [Hy Hxs] x [<-|Hx]; auto.
    + intros H. split; [apply H; now left | intros x Hx; apply H; now right].
Qed.

Lemma isPhysicalObject_iff (label : Label) :
  isPhysicalObject label = true <->
  (exists instance rest, Instances label = Some (instance :: rest)) /\
  (forall cat before after,
      In cat excludeCategories -> loweredName label <> before ++ cat ++ after).
Proof.
  unfold isPhysicalObject. rewrite filterName_loweredName, <- hasInstances_iff.
  destruct (existsb _ excludeCategories) eqn:Hex.
  - split; [discriminate|]. intros [_ Hfree]. exfalso.
    apply existsb_exists in Hex. destruct Hex as (cat & Hcat & Hincl).
    apply includes_occurs in Hincl. destruct Hincl as (before & after & Heq).
    exact (Hfree cat before after Hcat Heq).
  - split; [|tauto]. intros Hinst. split; [exact Hinst|].
    intros cat before after Hcat Heq.
    assert (Hincl : JS.includes (loweredName label) cat = true).
    { apply includes_occurs. now exists before, after. }
    rewrite (proj1 (existsb_false_iff _ _) Hex cat Hcat) in Hincl. discriminate.
Qed.

(** X1. The filter keeps exactly the labels that have at least one
    instance and whose lowercased name (the empty text when the name is
    absent) contains no term of the denylist. *)
Theorem physicalObjects_keeps_exactly :
  forall (allLabels : list Label) (label : Label),
    In label (physicalObjects allLabels) <->
    In label allLabels /\
    (exists instance rest, Instances label = Some (instance :: rest)) /\
    (forall cat before after,
        In cat excludeCategories -> loweredName label <> before ++ cat ++ after).
Proof.
  intros allLabels label. unfold physicalObjects.
  rewrite filter_In, isPhysicalObject_iff. reflexivity.
Qed.

Lemma filter_all_kept {A : Type} (f : A -> bool) (xs : list A) :
  (forall x, In x xs -> f x = true) -> filter f xs = xs.
Proof.
  induction xs as [|y xs IH]; simpl; intros H; [reflexivity|].
  rewrite (H y) by now left. f_equal. apply IH. intros x Hx. apply H. now right.
Qed.

Lemma slice0_slice0 {A : Type} (n : nat) (xs : list A) :
  JS.slice0 n (JS.slice0 n xs) = JS.slice0 n xs.
Proof.
  unfold JS.slice0. rewrite firstn_firstn. now rewrite Nat.min_id.
Qed.

(** X2. Filtering the survivors again changes nothing: the narrated
    objects all pass the filter, in the same order, and are still at most
    three. *)
Theorem refiltering_changes_nothing :
  forall allLabels : list Label,
    topObjects (physicalObjects (topObjects (physicalObjects allLabels)))
    = topObjects (physicalObjects allLabels).
Proof.
  intros allLabels.
  assert (Hkept : physicalObjects (topObjects (physicalObjects allLabels))
                  = topObjects (physicalObjects allLabels)).
  { unfold physicalObjects at 1. apply filter_all_kept. intros label Hin.
    apply topObjects_In in Hin. unfold physicalObjects in Hin.
    apply filter_In in Hin. tauto. }
  rewrite Hkept. apply slice0_slice0.
Qed.

(* ===================================================================== *)
(** ** More on the sentence *)
(* ===================================================================== *)

Lemma narratedName_unnamed (label : Label) :
  Name label = None \/ Name label = Some "" -> narratedName label = "object".
Proof. unfold narratedName. intros [H|H]; rewrite H; reflexivity. Qed.

Lemma loweredName_unnamed (label : Label) :
  Name label = None \/ Name label = Some "" -> loweredName label = "".
Proof. unfold loweredName. intros [H|H]; rewrite H; reflexivity. Qed.

Lemma empty_contains_no_category (cat before after : string) :
  In cat excludeCategories -> "" <> before ++ cat ++ after.
Proof.
  intros Hcat Heq. destruct before; [|discriminate]. simpl in Heq.
  destruct cat; [|discriminate].
  simpl in Hcat. repeat (destruct Hcat as [Hcat|Hcat]; [discriminate|]). exact Hcat.
Qed.

(** X3. A label without a name (absent or empty) that has an instance
    passes the filter, and is narrated as "object": alone, its sentence reads
    "... I see a object ...". *)
Theorem unnamed_label_is_narrated_as_object :
  forall (Math_round : float -> float) (Number_toString : float -> string)
         (allLabels : list Label) (label : Label),
    In label allLabels ->
    Name label = None \/ Name label = Some "" ->
    (exists instance rest, Instances label = Some (instance :: rest)) ->
    In label (physicalObjects allLabels) /\
    forall realDistance : option float,
      describe Math_round Number_toString [label] realDistance
      = leadingClause Math_round Number_toString realDistance
          ++ "I see a object"
          ++ distanceClause realDistance label ++ directionClause label ++ ".".
Proof.
  intros Math_round Number_toString allLabels label Hin Hname Hinst. split.
  - unfold physicalObjects. apply filter_In. split; [exact Hin|].
    apply isPhysicalObject_iff. split; [exact Hinst|].
    intros cat before after Hcat. rewrite (loweredName_unnamed label Hname).
    now apply empty_contains_no_category.
  - intros realDistance. rewrite describe_nonempty by discriminate.
    cbn [topObjects JS.slice0 firstn listingFrom]. unfold objectClause.
    rewrite (narratedName_unnamed label Hname). cbn [connective Nat.eqb].
    rewrite append_empty_r, !append_assoc. reflexivity.
Qed.

Lemma unnamed_label_is_narrated_as_object_witness :
  In unnamedLabel (physicalObjects [Sample.livingRoom; unnamedLabel]) /\
  forall realDistance : option float,
    describe Sample.Math_round Sample.Number_toString [unnamedLabel] realDistance
    = leadingClause Sample.Math_round Sample.Number_toString realDistance
        ++ "I see a object"
        ++ distanceClause realDistance unnamedLabel ++ directionClause unnamedLabel ++ ".".
Proof.
  apply (unnamed_label_is_narrated_as_object
           Sample.Math_round Sample.Number_toString
           [Sample.livingRoom; unnamedLabel] unnamedLabel).
  - simpl. tauto.
  - left. reflexivity.
  - exists (mkInstance None None), []. reflexivity.
Defined.

Lemma listingFrom_names (realDistance : option float) (label : Label)
      (labels : list Label) :
  In label labels ->
  forall index, exists before after,
    listingFrom (objectClause realDistance) labels index
    = before ++ narratedName label ++ after.
Proof.
  induction labels as [|l labels IH]; intros Hin index; [destruct Hin|].
  destruct Hin as [->|Hin]; cbn [listingFrom].
  - exists (connective index),
      (distanceClause realDistance label ++ directionClause label
         ++ listingFrom (objectClause realDistance) labels (S index)).
    unfold objectClause. now rewrite !append_assoc.
  - destruct (IH Hin (S index)) as (before & after & Heq).
    exists (objectClause realDistance l index ++ before), after.
    rewrite Heq. now rewrite !append_assoc.
Qed.

(** X4. Each of the first three filtered objects is named in the
    sentence, which ends with a period: the sentence is some text, the
    object's narrated name, some more text, and ".". *)
Theorem every_narrated_object_is_named :
  forall (Math_round : float -> float) (Number_toString : float -> string)
         (objects : list Label) (realDistance : option float) (label : Label),
    In label (topObjects objects) ->
    exists before after,
      describe Math_round Number_toString objects realDistance
      = before ++ narratedName label ++ after ++ ".".
Proof.
  intros Math_round Number_toString objects realDistance label Hin.
  assert (Hne : objects <> []) by (intros ->; destruct Hin).
  rewrite describe_nonempty by assumption.
  destruct (listingFrom_names realDistance label (topObjects objects) Hin 0)
    as (before & after & Heq).
  exists (leadingClause Math_round Number_toString realDistance ++ before), after.
  rewrite Heq. now rewrite !append_assoc.
Qed.

Lemma every_narrated_object_is_named_witness :
  exists before after,
    describe Sample.Math_round Sample.Number_toString
             [Sample.chair; Sample.chairWithoutBox] None
    = before ++ narratedName Sample.chairWithoutBox ++ after ++ ".".
Proof.
  apply (every_narrated_object_is_named
           Sample.Math_round Sample.Number_toString
           [Sample.chair; Sample.chairWithoutBox] None Sample.chairWithoutBox).
  simpl. tauto.
Defined.

(** X5. Only the first three filtered objects reach the sentence: the
    sentence of a list is the sentence of its first three elements. *)
Theorem objects_after_the_third_are_silent :
  forall (Math_round : float -> float) (Number_toString : float -> string)
         (objects : list Label) (realDistance : option float),
    describe Math_round Number_toString objects realDistance
    = describe Math_round Number_toString (topObjects objects) realDistance.
Proof.
  intros Math_round Number_toString objects realDistance.
  destruct objects as [|o objects]; [reflexivity|].
  rewrite (describe_nonempty _ _ (o :: objects)) by discriminate.
  rewrite (describe_nonempty _ _ (topObjects (o :: objects))) by discriminate.
  unfold topObjects. now rewrite slice0_slice0.
Qed.

(* ===================================================================== *)
(** ** More on distance and direction *)
(* ===================================================================== *)

Lemma orNum_falsy (x : option float) :
  falsyField x = true -> JS.orNum x 0 = 0%float.
Proof.
  destruct x as [v|]; simpl; [|reflexivity].
  destruct (JS.truthyNum v); [discriminate | reflexivity].
Qed.

(** A product with [0] is a zero or [NaN]. *)
Definition zeroOrNaN (x : float) : Prop :=
  Prim2SF x = S754_nan \/ exists s, Prim2SF x = S754_zero s.

Lemma mul_zero_l (y : float) : zeroOrNaN (0 * y).
Proof.
  unfold zeroOrNaN. rewrite mul_spec, Prim2SF_zero.
  destruct (Prim2SF y); simpl; eauto.
Qed.

Lemma mul_zero_r (x : float) : zeroOrNaN (x * 0).
Proof.
  unfold zeroOrNaN. rewrite mul_spec, Prim2SF_zero.
  destruct (Prim2SF x); simpl; eauto.
Qed.

Lemma objectDistanceOf_zeroOrNaN (area : float) :
  zeroOrNaN area -> objectDistanceOf area = "more than 15 feet".
Proof.
  intros Harea. unfold objectDistanceOf, gt.
  rewrite !FloatAxioms.ltb_spec.
  destruct Harea as [->|[s ->]]; reflexivity.
Qed.

(** X6. A bounding box whose width or height is absent, zero or not a
    number has area zero (or no area at all), and its object is reported in
    the farthest bucket, "more than 15 feet". *)
Theorem degenerate_box_is_farthest :
  forall box : BoundingBox,
    falsyField (Width box) = true \/ falsyField (Height box) = true ->
    objectDistanceOf (boxArea box) = "more than 15 feet".
Proof.
  intros box [Hw|Hh]; apply objectDistanceOf_zeroOrNaN; unfold boxArea.
  - rewrite (orNum_falsy _ Hw). apply mul_zero_l.
  - rewrite (orNum_falsy _ Hh). apply mul_zero_r.
Qed.

Lemma degenerate_box_is_farthest_witness :
  objectDistanceOf (boxArea (mkBox None (Some 0.9%float) (Some 0.05%float) (Some 0.05%float)))
  = "more than 15 feet".
Proof.
  apply (degenerate_box_is_farthest
           (mkBox None (Some 0.9%float) (Some 0.05%float) (Some 0.05%float))).
  left. reflexivity.
Defined.

Lemma not_right_and_left (c : float) :
  PrimFloat.ltb 0.7 c = true -> PrimFloat.ltb c 0.3 = false.
Proof.
  intros Hright. destruct (PrimFloat.ltb c 0.3) eqn:Hleft; [|reflexivity].
  pose proof (ltb_trans _ _ _ Hright Hleft) as Habsurd. discriminate Habsurd.
Qed.

(** X7. Directions follow the frame: of two centres, the one further to
    the right is never reported more to the left (left, in front, right), and
    the lower one is never reported higher (above, level, below). *)
Theorem direction_follows_the_frame :
  forall c1 c2 : float,
    PrimFloat.ltb c1 c2 = true ->
    horizontalRank (horizontalOf c1) <= horizontalRank (horizontalOf c2) /\
    verticalRank (verticalOf c1) <= verticalRank (verticalOf c2).
Proof.
  intros c1 c2 Hlt.
  assert (Hleft : PrimFloat.ltb c2 0.3 = true -> PrimFloat.ltb c1 0.3 = true)
    by (intros H; exact (ltb_trans _ _ _ Hlt H)).
  assert (Hright : PrimFloat.ltb 0.7 c1 = true -> PrimFloat.ltb 0.7 c2 = true)
    by (intros H; exact (ltb_trans _ _ _ H Hlt)).
  pose proof (not_right_and_left c2) as Hexcl.
  unfold horizontalOf, verticalOf, gt.
  destruct (PrimFloat.ltb c2 0.3).
  - rewrite (Hleft eq_refl). split; cbv; lia.
  - destruct (PrimFloat.ltb c1 0.3).
    + destruct (PrimFloat.ltb 0.7 c2); split; cbv; lia.
    + destruct (PrimFloat.ltb 0.7 c1).
      * rewrite (Hright eq_refl). split; cbv; lia.
      * destruct (PrimFloat.ltb 0.7 c2); split; cbv; lia.
Qed.

Lemma direction_follows_the_frame_witness :
  horizontalRank (horizontalOf 0.25) <= horizontalRank (horizontalOf 0.55) /\
  verticalRank (verticalOf 0.25) <= verticalRank (verticalOf 0.55).
Proof.
  apply (direction_follows_the_frame 0.25 0.55). reflexivity.
Defined.

(* ===================================================================== *)
(** ** More on the cycle *)
(* ===================================================================== *)

(** Splits a cycle into its paths: one case for each answer of the
    camera, the decoder, the storage and vision services and the depth
    sensor. *)
Ltac cycle_paths w s :=
  unfold attempt, recovery, usableBase64, apology, depthEvents;
  cbn [fst snd];
  repeat match goal with
  | |- context [match cameraResponse w with _ => _ end] =>
      destruct (cameraResponse w) as [?|[[[?|]]|]]
  | |- context [JS.truthyStr ?b] => destruct (JS.truthyStr b)
  | |- context [atobResponse w ?b] => destruct (atobResponse w b)
  | |- context [s3Response w ?k] => destruct (s3Response w k)
  | |- context [rekognitionResponse w ?k] => destruct (rekognitionResponse w k)
  | |- context [isCancelled ?e] => destruct (isCancelled e)
  | |- context [hasLiDAR s && arkitModule w] => destruct (hasLiDAR s && arkitModule w)
  | _ => progress cbn [fst snd]
  end.

(** One case for each outcome of each call of [speakText]. *)
Ltac speech_cases w :=
  unfold announcement;
  repeat match goal with
  | |- context [speechResponse w ?t] => destruct (speechResponse w t)
  end.

(** [speakText] only stops, speaks and alerts. *)
Lemma filter_announcement (p : Event -> bool) (w : Collaborators) (text : string) :
  p SpeechStop = false ->
  (forall t, p (SpeechSpeak t) = false) ->
  (forall title t, p (AlertShown title t) = false) ->
  filter p (announcement w text) = [].
Proof.
  intros Hstop Hspeak Halert. unfold announcement.
  destruct (speechResponse w text); cbn [filter];
    rewrite ?Hstop, ?Hspeak, ?Halert; reflexivity.
Qed.

(** Filters a cycle's events for calls that are not calls of the speech
    collaborator. *)
Ltac filter_events :=
  repeat (progress (cbn [filter app isCapture isUpload isAnalysis orb];
                    rewrite ?filter_app, ?filter_announcement by reflexivity)).





(** X10. Every call to [Speech.speak] in a cycle comes right after a call
    to [Speech.stop]: an utterance in progress is cancelled before the next
    one starts. *)
Theorem speech_stops_before_it_speaks :
  forall (Math_round : float -> float) (Number_toString : float -> string)
         (w : Collaborators) (s : HomeScreen),
    speechCancelsPrior (snd (takePicture Math_round Number_toString w s)) = true.
Proof.
  intros Math_round Number_toString w s.
  destruct (analyzing s || negb (cameraModule w)) eqn:Hguard.
  - rewrite (takePicture_busy Math_round Number_toString w s Hguard). reflexivity.
  - apply orb_false_iff in Hguard. destruct Hguard as [Hidle Hcamera].
    apply negb_false_iff in Hcamera.
    rewrite (takePicture_run Math_round Number_toString w s Hidle Hcamera).
    cbn [snd]. cycle_paths w s; speech_cases w; reflexivity.
Qed.

(** X11. The vision service is called only after an upload that
    succeeded, and for the key that was uploaded: the storage and vision
    calls of a cycle are none, or one upload that was rejected, or one upload
    followed by one detection on the same key. *)
Theorem analysis_follows_a_successful_upload :
  forall (Math_round : float -> float) (Number_toString : float -> string)
         (w : Collaborators) (s : HomeScreen),
    let calls := cloudCalls (snd (takePicture Math_round Number_toString w s)) in
    let key := analysisKey (dateNow w) in
    calls = [] \/
    (exists body e, calls = [S3PutObject key body] /\ s3Response w key = Some e) \/
    (exists body, calls = [S3PutObject key body; RekognitionDetectLabels key] /\
                  s3Response w key = None).
Proof.
  intros Math_round Number_toString w s. cbv zeta.
  destruct (analyzing s || negb (cameraModule w)) eqn:Hguard.
  - rewrite (takePicture_busy Math_round Number_toString w s Hguard). now left.
  - apply orb_false_iff in Hguard. destruct Hguard as [Hidle Hcamera].
    apply negb_false_iff in Hcamera.
    rewrite (takePicture_run Math_round Number_toString w s Hidle Hcamera).
    cbn [snd]. unfold cloudCalls.
    cycle_paths w s; filter_events;
      first [ left; reflexivity
            | right; left; eexists _, _; split; reflexivity
            | right; right; eexists; split; reflexivity ].
Qed.

(** What the [try] block throws, stage by stage. *)
Inductive Throws (w : Collaborators) : JsError -> Prop :=
| CaptureRejected : forall e,
    cameraResponse w = inl e -> Throws w e
| NoImageData : forall photo,
    cameraResponse w = inr photo ->
    usableBase64 photo = None ->
    Throws w (newError "No image data")
| DecodingRejected : forall photo b e,
    cameraResponse w = inr photo ->
    usableBase64 photo = Some b ->
    atobResponse w b = inl e ->
    Throws w e
| UploadRejected : forall photo b binaryString e,
    cameraResponse w = inr photo ->
    usableBase64 photo = Some b ->
    atobResponse w b = inr binaryString ->
    s3Response w (analysisKey (dateNow w)) = Some e ->
    Throws w e
| DetectionRejected : forall photo b binaryString e,
    cameraResponse w = inr photo ->
    usableBase64 photo = Some b ->
    atobResponse w b = inr binaryString ->
    s3Response w (analysisKey (dateNow w)) = None ->
    rekognitionResponse w (analysisKey (dateNow w)) = inl e ->
    Throws w e.

(** The apology is spoken. *)
Definition isApology (ev : Event) : bool :=
  match ev with
  | SpeechSpeak text => text =? apology
  | _ => false
  end.

(** An upload is rejected with a network error; and the same, with an
    error that carries the code of a cancellation. *)
Module SampleFailure.

Definition networkError : JsError :=
  mkError None (Some "Network request failed") "TypeError: Network request failed".

Definition cancelledUpload : JsError :=
  mkError (Some "CANCELLED") (Some "Request aborted") "Error: Request aborted".

Definition uploadRejected (error : JsError) : Collaborators :=
  mkCollaborators true false (fun _ => SpeechOk)
                  (inr (Some (mkPhoto (Some "QUJD")))) 1700000000000
                  (fun _ => inr "ABC") (fun _ => Some error)
                  (fun _ => inr None) (inl error).

Definition emptyPhoto : Collaborators :=
  mkCollaborators true false (fun _ => SpeechOk)
                  (inr (Some (mkPhoto (Some "")))) 1700000000000
                  (fun _ => inr "") (fun _ => None)
                  (fun _ => inr None) (inl networkError).

End SampleFailure.

Section FailurePaths.
Variable Math_round : float -> float.
Variable Number_toString : float -> string.

Lemma attempt_throws (w : Collaborators) (s : HomeScreen) (e : JsError) :
  Throws w e ->
  fst (fst (attempt Math_round Number_toString w s)) = Some e /\
  existsb isApology (snd (attempt Math_round Number_toString w s)) = false.
Proof.
  intros Hthrows. unfold attempt.
  destruct Hthrows as [e H1|photo H1 H2|photo b e H1 H2 H3
                       |photo b bin e H1 H2 H3 H4|photo b bin e H1 H2 H3 H4 H5];
    rewrite H1; try rewrite H2; try rewrite H3; try rewrite H4; try rewrite H5;
    cbn [fst snd]; (split; [reflexivity|]);
    unfold announcement; destruct (speechResponse w "Analyzing"); reflexivity.
Qed.

Lemma announcement_no_apology (w : Collaborators) :
  existsb isApology (announcement w "Opening camera") = false.
Proof.
  unfold announcement. destruct (speechResponse w "Opening camera"); reflexivity.
Qed.

End FailurePaths.



(** X13. The code of a cancellation is honoured wherever the error comes
    from: when the decoder, the upload or the detection throws an error whose
    code is 'CANCELLED', the cycle ends as for a cancelled capture, with the
    result text cleared, the instructions shown again, and no apology
    spoken. *)
Theorem cancellation_code_silences_any_stage :
  forall (Math_round : float -> float) (Number_toString : float -> string)
         (w : Collaborators) (s : HomeScreen) (e : JsError),
    analyzing s = false ->
    cameraModule w = true ->
    Throws w e ->
    isCancelled e = true ->
    let '(_, s', events) := takePicture Math_round Number_toString w s in
    result s' = "" /\
    body (render s') = Instructions (hasLiDAR s) /\
    analyzing s' = false /\
    existsb isApology events = false /\
    exists before,
      events = (before ++ [SetResult ""; SetAnalyzing false; SetAnalyzing false])%list.
Proof.
  intros Math_round Number_toString w s e Hidle Hcamera Hthrows Hcode.
  rewrite (takePicture_run Math_round Number_toString w s Hidle Hcamera).
  destruct (attempt_throws Math_round Number_toString w s e Hthrows) as [Hthrown Hquiet].
  rewrite Hthrown. unfold recovery. rewrite Hcode. cbn [fst snd].
  split; [reflexivity|]. split; [reflexivity|]. split; [reflexivity|]. split.
  - cbn [existsb isApology orb]. rewrite !existsb_app.
    rewrite announcement_no_apology, Hquiet. reflexivity.
  - exists (SetAnalyzing true
              :: announcement w "Opening camera"
              ++ snd (attempt Math_round Number_toString w s))%list.
    tidy_events.
Qed.

Lemma cancellation_code_silences_any_stage_witness :
  let '(_, s', events) :=
    takePicture Sample.Math_round Sample.Number_toString
                (SampleFailure.uploadRejected SampleFailure.cancelledUpload)
                SampleCycle.usedScreen in
  result s' = "" /\
  body (render s') = Instructions (hasLiDAR SampleCycle.usedScreen) /\
  analyzing s' = false /\
  existsb isApology events = false /\
  exists before,
    events = (before ++ [SetResult ""; SetAnalyzing false; SetAnalyzing false])%list.
Proof.
  apply (cancellation_code_silences_any_stage
           Sample.Math_round Sample.Number_toString
           (SampleFailure.uploadRejected SampleFailure.cancelledUpload)
           SampleCycle.usedScreen SampleFailure.cancelledUpload).
  - reflexivity.
  - reflexivity.
  - apply (UploadRejected _ (Some (mkPhoto (Some "QUJD"))) "QUJD" "ABC"); reflexivity.
  - reflexivity.
Defined.

(** X14. A capture that resolves without usable image data (no photo, a
    photo without [base64], or an empty [base64]) fails with "No image
    data": that text is displayed, the apology is handed to [speakText], and
    nothing is decoded, uploaded or analysed. *)
Theorem capture_without_image_data_fails :
  forall (Math_round : float -> float) (Number_toString : float -> string)
         (w : Collaborators) (s : HomeScreen) (photo : option Photo),
    analyzing s = false ->
    cameraModule w = true ->
    cameraResponse w = inr photo ->
    photo = None \/ photo = Some (mkPhoto None) \/ photo = Some (mkPhoto (Some "")) ->
    takePicture Math_round Number_toString w s
    = (Normal tt,
       mkHomeScreen false "Analysis failed: No image data" (hasLiDAR s) (arSessionActive s),
       SetAnalyzing true
         :: (announcement w "Opening camera"
             ++ [CameraTakePicture; SetResult "Analysis failed: No image data"]
             ++ announcement w "Analysis failed. Please try again."
             ++ [SetAnalyzing false])%list).
Proof.
  intros Math_round Number_toString w s photo Hidle Hcamera Hphoto Hshape.
  rewrite (takePicture_run Math_round Number_toString w s Hidle Hcamera).
  unfold attempt. rewrite Hphoto.
  destruct Hshape as [ -> | [ -> | -> ] ]; cbn [usableBase64 JS.truthyStr fst snd];
    unfold recovery, apology; cbn; reflexivity.
Qed.

Lemma capture_without_image_data_fails_witness :
  takePicture Sample.Math_round Sample.Number_toString
              SampleFailure.emptyPhoto SampleCycle.freshScreen
  = (Normal tt,
     mkHomeScreen false "Analysis failed: No image data"
                  (hasLiDAR SampleCycle.freshScreen)
                  (arSessionActive SampleCycle.freshScreen),
     SetAnalyzing true
       :: (announcement SampleFailure.emptyPhoto "Opening camera"
           ++ [CameraTakePicture; SetResult "Analysis failed: No image data"]
           ++ announcement SampleFailure.emptyPhoto "Analysis failed. Please try again."
           ++ [SetAnalyzing false])%list).
Proof.
  apply (capture_without_image_data_fails
           Sample.Math_round Sample.Number_toString
           SampleFailure.emptyPhoto SampleCycle.freshScreen
           (Some (mkPhoto (Some "")))).
  - reflexivity.
  - reflexivity.
  - reflexivity.
  - right. right. reflexivity.
Defined.

Lemma announcement_no_depth (w : Collaborators) (text : string) :
  existsb isDepthReading (announcement w text) = false.
Proof. apply announcement_quiet. Qed.

(** Looks for depth readings among a cycle's events. *)
Ltac depth_events :=
  repeat (progress (cbn [existsb app isDepthReading orb];
                    rewrite ?existsb_app, ?announcement_no_depth)).

Lemma depth_readings_of_cycle (Math_round : float -> float)
      (Number_toString : float -> string) (w : Collaborators) (s : HomeScreen) :
  existsb isDepthReading (snd (takePicture Math_round Number_toString w s)) = true ->
  hasLiDAR s && arkitModule w = true.
Proof.
  destruct (analyzing s || negb (cameraModule w)) eqn:Hguard.
  - rewrite (takePicture_busy Math_round Number_toString w s Hguard). discriminate.
  - apply orb_false_iff in Hguard. destruct Hguard as [Hidle Hcamera].
    apply negb_false_iff in Hcamera.
    rewrite (takePicture_run Math_round Number_toString w s Hidle Hcamera).
    cbn [snd]. destruct (hasLiDAR s && arkitModule w) eqn:Hdepth; [reflexivity|].
    unfold attempt, depthEvents. rewrite Hdepth.
    cycle_paths w s; depth_events; discriminate.
Qed.

(** X15. A depth reading that cannot be had (no LiDAR flag, no depth
    module, or a reading that is rejected) never fails the cycle: the
    sentence is the one for no measured distance, with the size-based
    estimates, and the sensor is asked only when the LiDAR flag is set and
    the module is present. *)
Theorem missing_depth_falls_back_to_size_estimates :
  forall (Math_round : float -> float) (Number_toString : float -> string)
         (w : Collaborators) (s : HomeScreen)
         (objects : list Label) (realDistance : option float),
    reachesSynthesis w s objects realDistance ->
    hasLiDAR s = false \/ arkitModule w = false \/ (exists e, depthResponse w = inl e) ->
    let '(_, s', events) := takePicture Math_round Number_toString w s in
    realDistance = None /\
    result s' = describe Math_round Number_toString objects None /\
    endsWith w (describe Math_round Number_toString objects None) events /\
    existsb isDepthReading events = hasLiDAR s && arkitModule w.
Proof.
  intros Math_round Number_toString w s objects realDistance
         (Hidle & Hcam & b & bin & labels & Hp & Hb & Ha & Hs & Hd & Ho & Hm) Hmissing.
  assert (Hnone : measuredDistance w s = None).
  { unfold measuredDistance.
    destruct Hmissing as [Hl|[Hk|[e He]]].
    - now rewrite Hl.
    - rewrite Hk, andb_false_r. reflexivity.
    - rewrite He. now destruct (hasLiDAR s && arkitModule w). }
  rewrite (takePicture_analysed Math_round Number_toString w s b bin labels)
    by assumption.
  cbv zeta. rewrite Ho, Hnone. cbn [result].
  split; [congruence|]. split; [reflexivity|]. split.
  - exists (SetAnalyzing true
              :: announcement w "Opening camera"
              ++ [CameraTakePicture; SetResult "Analyzing image..."]
              ++ announcement w "Analyzing"
              ++ [S3PutObject (analysisKey (dateNow w)) (list_ascii_of_string bin);
                  RekognitionDetectLabels (analysisKey (dateNow w))]
              ++ depthEvents w s)%list.
    repeat (rewrite <- ?app_assoc; cbn [app]). reflexivity.
  - unfold depthEvents. destruct (hasLiDAR s && arkitModule w); depth_events; reflexivity.
Qed.

Lemma missing_depth_falls_back_to_size_estimates_witness :
  let '(_, s', events) :=
    takePicture Sample.Math_round Sample.Number_toString
                SampleCycle.chairAlone SampleCycle.usedScreen in
  @None float = None /\
  result s' = describe Sample.Math_round Sample.Number_toString [Sample.chair] None /\
  endsWith SampleCycle.chairAlone
           (describe Sample.Math_round Sample.Number_toString [Sample.chair] None) events /\
  existsb isDepthReading events
  = hasLiDAR SampleCycle.usedScreen && arkitModule SampleCycle.chairAlone.
Proof.
  apply (missing_depth_falls_back_to_size_estimates
           Sample.Math_round Sample.Number_toString
           SampleCycle.chairAlone SampleCycle.usedScreen [Sample.chair] None).
  - split; [reflexivity|]. split; [reflexivity|].
    exists "REVG", "DEF", (Some [Sample.chair]).
    repeat split; reflexivity.
  - right. right. exists SampleCycle.sensorFailure. reflexivity.
Defined.

(* ===================================================================== *)
(** ** Start-up *)
(* ===================================================================== *)

Module SampleStartup.

(** LiDAR is there, but the depth session does not start. *)
Definition sessionRejected : DepthStartup :=
  mkDepthStartup true (inr true) (Some SampleCycle.sensorFailure).

(** The depth module answers that the device has no LiDAR. *)
Definition noLiDAR : DepthStartup :=
  mkDepthStartup true (inr false) None.

End SampleStartup.

(** X16. [checkLiDAR] leaves [analyzing] and the result text alone.
    From flags that are both down, it raises [hasLiDAR] exactly when the depth
    module is present and answers that LiDAR is available, and
    [arSessionActive] exactly when, in addition, the depth session starts; so
    an active session implies the LiDAR flag, while the flag can be up with no
    session. *)
Theorem checkLiDAR_sets_the_flags :
  forall (d : DepthStartup) (s : HomeScreen),
    hasLiDAR s = false ->
    arSessionActive s = false ->
    let s' := fst (checkLiDAR d s) in
    analyzing s' = analyzing s /\
    result s' = result s /\
    (hasLiDAR s' = true <-> depthModule d = true /\ availableResponse d = inr true) /\
    (arSessionActive s' = true <->
     depthModule d = true /\ availableResponse d = inr true /\ startResponse d = None) /\
    (arSessionActive s' = true -> hasLiDAR s' = true).
Proof.
  intros d s Hflag Hsession. unfold checkLiDAR.
  destruct (depthModule d); [|cbn [fst]; rewrite Hflag, Hsession; intuition discriminate].
  destruct (availableResponse d) as [e|[|]];
    [cbn [fst]; rewrite Hflag, Hsession; intuition discriminate| |].
  - destruct (startResponse d) as [e|]; cbn; rewrite ?Hsession;
      intuition (try discriminate; auto).
  - cbn. rewrite ?Hsession. intuition discriminate.
Qed.

Lemma checkLiDAR_sets_the_flags_witness :
  let s' := fst (checkLiDAR SampleStartup.sessionRejected initialScreen) in
  analyzing s' = analyzing initialScreen /\
  result s' = result initialScreen /\
  (hasLiDAR s' = true <->
   depthModule SampleStartup.sessionRejected = true /\
   availableResponse SampleStartup.sessionRejected = inr true) /\
  (arSessionActive s' = true <->
   depthModule SampleStartup.sessionRejected = true /\
   availableResponse SampleStartup.sessionRejected = inr true /\
   startResponse SampleStartup.sessionRejected = None) /\
  (arSessionActive s' = true -> hasLiDAR s' = true).
Proof.
  apply (checkLiDAR_sets_the_flags SampleStartup.sessionRejected initialScreen);
    reflexivity.
Defined.

(** X17. When the start-up check does not find LiDAR (no depth module, a
    rejected query, or the answer "not available"), no cycle started from
    the screen it leaves ever asks the depth sensor, and every sentence is
    synthesised without a measured distance. *)
Theorem without_LiDAR_no_cycle_reads_depth :
  forall (Math_round : float -> float) (Number_toString : float -> string)
         (d : DepthStartup) (w : Collaborators) (s : HomeScreen),
    hasLiDAR s = false ->
    arSessionActive s = false ->
    ~ (depthModule d = true /\ availableResponse d = inr true) ->
    let started := fst (checkLiDAR d s) in
    existsb isDepthReading (snd (takePicture Math_round Number_toString w started)) = false /\
    forall objects realDistance,
      reachesSynthesis w started objects realDistance -> realDistance = None.
Proof.
  intros Math_round Number_toString d w s Hflag Hsession Hnone started.
  assert (Hoff : hasLiDAR started = false).
  { subst started. unfold checkLiDAR.
    destruct (depthModule d); [|exact Hflag].
    destruct (availableResponse d) as [e|[|]]; [exact Hflag| |reflexivity].
    exfalso. apply Hnone. now split. }
  split.
  - destruct (existsb isDepthReading _) eqn:Hread; [|reflexivity].
    apply depth_readings_of_cycle in Hread. rewrite Hoff in Hread. discriminate.
  - intros objects realDistance (_ & _ & _ & _ & _ & _ & _ & _ & _ & _ & _ & Hm).
    rewrite <- Hm. unfold measuredDistance. now rewrite Hoff.
Qed.

Lemma without_LiDAR_no_cycle_reads_depth_witness :
  let started := fst (checkLiDAR SampleStartup.noLiDAR initialScreen) in
  existsb isDepthReading
          (snd (takePicture Sample.Math_round Sample.Number_toString
                            SampleCycle.chairAlone started)) = false /\
  forall objects realDistance,
    reachesSynthesis SampleCycle.chairAlone started objects realDistance ->
    realDistance = None.
Proof.
  apply (without_LiDAR_no_cycle_reads_depth
           Sample.Math_round Sample.Number_toString
           SampleStartup.noLiDAR SampleCycle.chairAlone initialScreen).
  - reflexivity.
  - reflexivity.
  - intros [_ H]. discriminate H.
Defined.

(* ===================================================================== *)
(** ** The uploaded image *)
(* ===================================================================== *)

Lemma length_list_ascii_of_string (text : string) :
  List.length (list_ascii_of_string text) = String.length text.
Proof. induction text as [|c text IH]; simpl; [reflexivity | now rewrite IH]. Qed.

Lemma In_middle {A : Type} (x : A) (before after : list A) :
  In x (before ++ x :: after).
Proof. apply in_or_app. right. now left. Qed.

(** X18. The image that is uploaded is the image that was captured: when
    the capture gives usable [base64] text and [atob] decodes it, the cycle
    puts to storage, under the key "analysis/<time stamp>.jpg", a body with
    one byte per character of the decoded text, in the same order. *)
Theorem captured_image_is_uploaded :
  forall (Math_round : float -> float) (Number_toString : float -> string)
         (w : Collaborators) (s : HomeScreen)
         (photo : option Photo) (b binaryString : string),
    analyzing s = false ->
    cameraModule w = true ->
    cameraResponse w = inr photo ->
    usableBase64 photo = Some b ->
    atobResponse w b = inr binaryString ->
    let body := list_ascii_of_string binaryString in
    In (S3PutObject ("analysis/" ++ NilEmpty.string_of_uint (N.to_uint (dateNow w)) ++ ".jpg")
                    body)
       (snd (takePicture Math_round Number_toString w s)) /\
    List.length body = String.length binaryString /\
    string_of_list_ascii body = binaryString.
Proof.
  intros Math_round Number_toString w s photo b binaryString
         Hidle Hcamera Hphoto Hb Hatob body.
  split; [|split; [apply length_list_ascii_of_string
                  | apply string_of_list_ascii_of_string]].
  rewrite (takePicture_run Math_round Number_toString w s Hidle Hcamera).
  cbn [snd]. unfold attempt. rewrite Hphoto, Hb, Hatob.
  fold (analysisKey (dateNow w)). right. apply in_or_app. right.
  apply in_or_app. left.
  destruct (s3Response w (analysisKey (dateNow w))) as [e|];
    [|destruct (rekognitionResponse w (analysisKey (dateNow w))) as [e|labels]];
    cbn [snd]; rewrite <- ?app_assoc; apply In_middle.
Qed.

Lemma captured_image_is_uploaded_witness :
  let body := list_ascii_of_string "ABC" in
  In (S3PutObject
        ("analysis/"
           ++ NilEmpty.string_of_uint (N.to_uint (dateNow SampleCycle.chairAndScene))
           ++ ".jpg")
        body)
     (snd (takePicture Sample.Math_round Sample.Number_toString
                       SampleCycle.chairAndScene SampleCycle.freshScreen)) /\
  List.length body = String.length "ABC" /\
  string_of_list_ascii body = "ABC".
Proof.
  apply (captured_image_is_uploaded
           Sample.Math_round Sample.Number_toString
           SampleCycle.chairAndScene SampleCycle.freshScreen
           (Some (mkPhoto (Some "QUJD"))) "QUJD" "ABC"); reflexivity.
Defined.
